(** * backend/main.py: schema inference and the dashboard endpoint

    A shallow embedding of [backend/main.py].  Python values are modelled as
    follows.
    - [str] is [string]; a character stands for a code point below 256
      (Latin-1), which is closed under [str.lower] and [str.strip].
    - [os.environ] and the readable text files are finite maps ([gmap]).
    - A [float] is the rational that is the exact value of the binary64
      number ([Q], kept in lowest terms), with a separate not-a-number
      value; a float operation returns the binary64 value nearest to its
      exact result ([RN]).
    - Exceptions are a result type; the calls that leave the process (reading
      the environment, opening a file, the completion request) are logged in
      an event trace, so that "never calls" is a statement about the trace.
    - pandas' CSV reader and writer, [json.loads], [json.dumps] and the OpenAI
      client are libraries outside the repository: they are fields of a
      [World] record, and every theorem holds for all of them. *)

From Stdlib Require Import ZArith QArith Bool Ascii String List Lia.
From stdpp Require Import base option list strings pretty gmap.

Local Open Scope string_scope.
Local Open Scope Z_scope.

(** ** Python strings *)

Module Py.

(** Code point of a character. *)
Definition ord (c : ascii) : Z := Z.of_N (N_of_ascii c).

Definition chr (z : Z) : ascii := ascii_of_N (Z.to_N z).

(** [str.isspace] on one character, for code points below 256:
    TAB, LF, VT, FF, CR, FS, GS, RS, US, SPACE, NEL and NBSP. *)
Definition isspace (c : ascii) : bool :=
  let n := ord c in
  ((9 <=? n) && (n <=? 13)) || ((28 <=? n) && (n <=? 32))
  || (n =? 133) || (n =? 160).

(** [str.lower] on one character, for code points below 256: the letters
    A-Z and the Latin-1 capitals 192-222 (but for the multiplication sign,
    215) move up by 32. *)
Definition lower_char (c : ascii) : ascii :=
  let n := ord c in
  if ((65 <=? n) && (n <=? 90))
     || ((192 <=? n) && (n <=? 222) && negb (n =? 215))
  then chr (n + 32) else c.

(** [s.lower()] *)
Fixpoint lower (s : string) : string :=
  match s with
  | EmptyString => EmptyString
  | String c s' => String (lower_char c) (lower s')
  end.

(** [s.lstrip()] *)
Fixpoint lstrip (s : string) : string :=
  match s with
  | EmptyString => EmptyString
  | String c s' => if isspace c then lstrip s' else s
  end.

(** [s.rstrip()] *)
Fixpoint rstrip (s : string) : string :=
  match s with
  | EmptyString => EmptyString
  | String c s' =>
      match rstrip s' with
      | EmptyString => if isspace c then EmptyString else String c EmptyString
      | r => String c r
      end
  end.

(** [s.strip()] *)
Definition strip (s : string) : string := rstrip (lstrip s).

(** [s.startswith(p)] *)
Fixpoint startswith (p s : string) : bool :=
  match p, s with
  | EmptyString, _ => true
  | String a p', String b s' => if Ascii.eqb a b then startswith p' s' else false
  | String _ _, EmptyString => false
  end.

(** [sub in s]: [sub] occurs in [s] at some position. *)
Fixpoint contains (sub s : string) : bool :=
  startswith sub s ||
  match s with
  | EmptyString => false
  | String _ s' => contains sub s'
  end.

(** [s in (t1, ..., tn)] for a tuple of strings. *)
Definition in_tuple (s : string) (t : list string) : bool :=
  existsb (String.eqb s) t.

(** Truth value of a string: empty is false. *)
Definition truthy (s : string) : bool :=
  match s with EmptyString => false | _ => true end.

(** Truth value of an optional string: [None] and [""] are false. *)
Definition truthy_opt (o : option string) : bool :=
  match o with Some s => truthy s | None => false end.

(** [os.path.join(a, b)] for a relative [b] (POSIX). *)
Definition path_join (a b : string) : string :=
  if truthy a then
    if startswith "/" (String.string_of_list_ascii (rev (String.list_ascii_of_string a)))
    then a +:+ b else a +:+ "/" +:+ b
  else b.

(** [os.path.dirname(p)] (POSIX): everything before the last slash, with
    trailing slashes removed unless the head is made of slashes only. *)
Fixpoint rsplit_slash (s : string) : option (string * string) :=
  match s with
  | EmptyString => None
  | String c s' =>
      match rsplit_slash s' with
      | Some (h, t) => Some (String c h, t)
      | None => if Ascii.eqb c "/" then Some (String c EmptyString, s') else None
      end
  end.

Fixpoint all_slashes (s : string) : bool :=
  match s with
  | EmptyString => true
  | String c s' => Ascii.eqb c "/" && all_slashes s'
  end.

Fixpoint rstrip_slash (s : string) : string :=
  match s with
  | EmptyString => EmptyString
  | String c s' =>
      match rstrip_slash s' with
      | EmptyString => if Ascii.eqb c "/" then EmptyString else String c EmptyString
      | r => String c r
      end
  end.

Definition dirname (p : string) : string :=
  match rsplit_slash p with
  | None => EmptyString
  | Some (h, _) => if all_slashes h then h else rstrip_slash h
  end.

End Py.

(** ** Exceptions *)

Inductive exn : Type :=
| HTTPException (status_code : Z) (detail : string)
| Exception (class : string) (message : string).

(** [str(e)]; Starlette prints an [HTTPException] as its code, a colon
    and its detail. *)
Definition str_exn (e : exn) : string :=
  match e with
  | HTTPException status_code detail => pretty status_code +:+ ": " +:+ detail
  | Exception _ message => message
  end.

Inductive result (A : Type) : Type :=
| Return (a : A)
| Raise (e : exn).

Arguments Return {A} a.
Arguments Raise {A} e.

(** ** Python floats (binary64) *)

Inductive pyfloat : Type :=
| NaN
| Fl (q : Q).

(** [a < b] on rationals, as a boolean. *)
Definition Qltb (a b : Q) : bool := negb (Qle_bool b a).

(** Nearest integer, ties to the even one. *)
Definition round_half_even (q : Q) : Z :=
  let n := Qnum q in
  let d := Zpos (Qden q) in
  let f := n / d in
  let r := n mod d in
  if 2 * r <? d then f
  else if d <? 2 * r then f + 1
  else if Z.even f then f else f + 1.

(** [2 ^ e] as a rational, for any integer [e]. *)
Definition Qpow2 (e : Z) : Q :=
  if 0 <=? e then inject_Z (2 ^ e) else 1 # Z.to_pos (2 ^ (- e)).

(** The binary64 value nearest to [q], ties to the even significand: what
    a float operation returns when its exact result is [q], for magnitudes
    below [2 ^ 1024].  The significand has 53 bits and the exponent of its
    last bit is at least -1074. *)
Definition RN (q : Q) : Q :=
  let a := Z.abs (Qnum q) in
  let b := Zpos (Qden q) in
  if a =? 0 then 0%Q
  else
    let e0 := Z.log2 a - Z.log2 b - 52 in
    let e1 :=
      if Qltb ((a # Qden q) * Qpow2 (- e0)) (inject_Z (2 ^ 52))
      then e0 - 1 else e0 in
    let e := Z.max e1 (-1074) in
    let m := round_half_even ((a # Qden q) * Qpow2 (- e)) in
    Qred (inject_Z (Z.sgn (Qnum q) * m) * Qpow2 e).

(** [round(x, ndigits)] for [ndigits >= 0]: the exact value of [x] is
    rounded to [ndigits] decimal places, ties to even, and the float
    nearest to that decimal is returned; not-a-number stays so. *)
Definition round (x : pyfloat) (ndigits : nat) : pyfloat :=
  match x with
  | NaN => NaN
  | Fl q =>
      let p := 10 ^ Z.of_nat ndigits in
      Fl (RN (round_half_even (q * inject_Z p) # Z.to_pos p))
  end.

(** ** pandas: series and frames *)

Section Frame.

(** [V]: the non-missing values a cell can hold, with the equality pandas'
    hash tables use; a cell is [None] when the value is missing (NaN). *)
Context {V : Type} `{EqDecision V}.

Record Series : Type := {
  dtype : string;            (* str(ser.dtype) *)
  values : list (option V)
}.

(** A frame: the length of its index and its columns in order, by name.
    In a frame every column is as long as the index ([frame_ok]). *)
Record DataFrame : Type := {
  index_len : nat;
  columns : list (string * Series)
}.

Definition frame_ok (df : DataFrame) : Prop :=
  Forall (fun c => length (values c.2) = index_len df) (columns df).

(** [len(df)] *)
Definition len (df : DataFrame) : Z := Z.of_nat (index_len df).

(** [l[:n]]: the first [n] items, or all but the last [-n] when [n < 0]. *)
Definition slice_to {A : Type} (n : Z) (l : list A) : list A :=
  if 0 <=? n then take (Z.to_nat n) l
  else take (Z.to_nat (Z.of_nat (length l) + n)) l.

(** [df.head(n)], which is [df.iloc[:n]]. *)
Definition head (df : DataFrame) (n : Z) : DataFrame :=
  {| index_len := length (slice_to n (seq 0 (index_len df)));
     columns :=
       map (fun c => (c.1, {| dtype := dtype c.2;
                              values := slice_to n (values c.2) |}))
           (columns df) |}.

(** [ser.isna()] *)
Definition isna (ser : Series) : list bool :=
  map (fun c => match c with None => true | Some _ => false end) (values ser).

(** [ser.dropna()], as the list of its values *)
Definition dropna (ser : Series) : list V :=
  omap id (values ser).

(** [.unique()]: the distinct values in order of first appearance. *)
Fixpoint unique_from (seen l : list V) : list V :=
  match l with
  | [] => []
  | x :: l' =>
      if decide (x ∈ seen) then unique_from seen l'
      else x :: unique_from (x :: seen) l'
  end.

Definition unique (l : list V) : list V := unique_from [] l.

(** [ser.nunique(dropna=True)] *)
Definition nunique (ser : Series) : Z :=
  Z.of_nat (length (unique (dropna ser))).

(** [.mean()] of a boolean series: the count of [True], as a float,
    divided by the length, as a float; not-a-number when the series is
    empty. *)
Definition mean (l : list bool) : pyfloat :=
  match l with
  | [] => NaN
  | _ :: _ =>
      Fl (RN (Z.of_nat (length (filter (fun b => b = true) l))
              # Pos.of_nat (length l)))
  end.

(** One entry of the schema (a dict in the source). *)
Record Profile : Type := {
  p_name : string;
  p_dtype : string;
  p_nunique : Z;
  p_missing_pct : pyfloat;
  p_samples : list V;
  p_likely_categorical : bool
}.

(** Body of the loop of [infer_schema], for the column [col] of the
    sample with series [ser].  The quotient of line 65 and the literal
    0.05 are compared as exact rationals. *)
Definition infer_column (total : Z) (col : string) (ser : Series) : Profile :=
  let dtype := dtype ser in
  let nunique := nunique ser in
  let missing_pct := if 0 <? total then mean (isna ser) else Fl 0 in
  let samples := take 5 (unique (dropna ser)) in
  let likely_categorical :=
    Qltb (nunique # Z.to_pos (Z.max total 1)) (5 # 100) || (nunique <=? 50) in
  {| p_name := col;
     p_dtype := dtype;
     p_nunique := nunique;
     p_missing_pct := round missing_pct 3;
     p_samples := samples;
     p_likely_categorical := likely_categorical |}.

(** [df[col]]: the column with the label [col] when one column has it, a
    frame of all the columns with that label when several have it, and a
    [KeyError] when none has it. *)
Definition getitem_column (df : DataFrame) (col : string)
    : result (Series + DataFrame) :=
  match List.filter (fun c => String.eqb c.1 col) (columns df) with
  | [] => Raise (Exception "KeyError" ("'" +:+ col +:+ "'"))
  | [c] => Return (inl c.2)
  | cs => Return (inr {| index_len := index_len df; columns := cs |})
  end.

(** The loop of lines 59-73 over the labels [df.columns]; a frame has no
    attribute [dtype], so line 61 raises when [df_sample[col]] is one. *)
Fixpoint infer_loop (total : Z) (df_sample : DataFrame) (labels : list string)
    : result (list Profile) :=
  match labels with
  | [] => Return []
  | col :: rest =>
      match getitem_column df_sample col with
      | Return (inl ser) =>
          match infer_loop total df_sample rest with
          | Return schema => Return (infer_column total col ser :: schema)
          | Raise e => Raise e
          end
      | Return (inr _) =>
          Raise (Exception "AttributeError"
                   "'DataFrame' object has no attribute 'dtype'")
      | Raise e => Raise e
      end
  end.

(** [infer_schema(df, sample_n)]; [to_csv] is [df.to_csv(index=False)]. *)
Definition infer_schema (to_csv : DataFrame -> string)
    (df : DataFrame) (sample_n : Z) : result (list Profile * string) :=
  let rows := Z.min (len df) sample_n in
  let df_sample := head df rows in
  let total := len df in
  match infer_loop total df_sample (map fst (columns df)) with
  | Return schema => Return (schema, to_csv df_sample)
  | Raise e => Raise e
  end.

End Frame.

Arguments Series : clear implicits.
Arguments DataFrame : clear implicits.
Arguments Profile : clear implicits.

(** ** JSON values (what [json.loads] returns and the handler sends back) *)

#[warning="-register-all"]
Inductive json : Type :=
| JNull
| JBool (b : bool)
| JInt (z : Z)
| JFloat (x : pyfloat)
| JStr (s : string)
| JList (items : list json)
| JDict (items : list (string * json)).

(** [d[k]] on the items of a dict. *)
Fixpoint dict_get (k : string) (items : list (string * json)) : option json :=
  match items with
  | [] => None
  | (k', v) :: rest => if String.eqb k k' then Some v else dict_get k rest
  end.

(** ** Effects and the trace *)

(** One message of the prompt. *)
Record Message : Type := { role : string; content : string }.

(** The keyword arguments of [client.chat.completions.create]. *)
Record CompletionRequest : Type := {
  model : string;
  messages : list Message;
  temperature : pyfloat;
  max_tokens : Z
}.

(** What leaves the handler, in order. [Call f] marks the entry into the
    function [f] of this module. *)
Inductive event : Type :=
| Call (f : string)
| Getenv (name : string)
| Open (path : string)
| Print (text : string)
| ChatCompletionsCreate (api_key : string) (req : CompletionRequest).

(** A computation: the events it produced and how it ended. *)
Definition M (A : Type) : Type := list event * result A.

Definition ret {A : Type} (a : A) : M A := ([], Return a).

Definition raise {A : Type} (e : exn) : M A := ([], Raise e).

Definition emit (ev : event) : M unit := ([ev], Return tt).

Definition bind {A B : Type} (m : M A) (k : A -> M B) : M B :=
  match m with
  | (t, Return a) => let '(t', r) := k a in ((t ++ t')%list, r)
  | (t, Raise e) => (t, Raise e)
  end.

(** [try: m  except <class>: h], where [catches e] tells whether the
    clause catches [e]. *)
Definition try_except {A : Type} (m : M A) (catches : exn -> bool)
    (h : exn -> M A) : M A :=
  match m with
  | (t, Raise e) =>
      if catches e then let '(t', r) := h e in ((t ++ t')%list, r) else (t, Raise e)
  | (t, Return a) => (t, Return a)
  end.

(** [except Exception]: every exception of the model. *)
Definition any_Exception (e : exn) : bool := true.

(** [except HTTPException] *)
Definition is_HTTPException (e : exn) : bool :=
  match e with HTTPException _ _ => true | Exception _ _ => false end.

Declare Scope py_scope.
Delimit Scope py_scope with py.

Notation "'let!' x ':=' m 'in' k" := (bind m (fun x => k))
  (at level 10, x name, m at level 100, k at level 200) : py_scope.
Notation "'do!' m 'in' k" := (bind m (fun _ => k))
  (at level 10, m at level 100, k at level 200) : py_scope.

Local Open Scope py_scope.

Definition trace {A : Type} (m : M A) : list event := m.1.

Definition outcome {A : Type} (m : M A) : result A := m.2.

(** The status line FastAPI answers with: 200 for a returned value, the
    code of an [HTTPException], 500 for any other exception. *)
Definition http_status {A : Type} (r : result A) : Z :=
  match r with
  | Return _ => 200
  | Raise (HTTPException code _) => code
  | Raise (Exception _ _) => 500
  end.

Definition HTTP_401_UNAUTHORIZED : Z := 401.
Definition HTTP_429_TOO_MANY_REQUESTS : Z := 429.
Definition HTTP_500_INTERNAL_SERVER_ERROR : Z := 500.
Definition HTTP_502_BAD_GATEWAY : Z := 502.

(** ** The regular expression of the extraction fallback *)

(** The suffix of [s] that starts at its first opening brace. *)
Fixpoint from_first_lbrace (s : string) : option string :=
  match s with
  | EmptyString => None
  | String c s' => if Ascii.eqb c "{" then Some s else from_first_lbrace s'
  end.

(** The prefix of [s] that ends at its last closing brace. *)
Fixpoint to_last_rbrace (s : string) : option string :=
  match s with
  | EmptyString => None
  | String c s' =>
      match to_last_rbrace s' with
      | Some r => Some (String c r)
      | None => if Ascii.eqb c "}" then Some (String c EmptyString) else None
      end
  end.

(** [re.search(r"(\{(?:.|\n)*\})", s)], giving [m.group(1)]: the search
    takes the leftmost opening brace, the starred group takes any character
    and is greedy, so the match runs to the last closing brace after it. *)
Definition re_search_braces (s : string) : option string :=
  match from_first_lbrace s with
  | Some (String c rest) =>
      match to_last_rbrace rest with
      | Some r => Some (String c r)
      | None => None
      end
  | _ => None
  end.

(** ** The world around the handler *)

(** The answer of the completion API: [resp.choices[i].message.content]
    for each choice, [None] when the message has no text. *)
Record ChatCompletion : Type := { choices : list (option string) }.

(** The process state the module reads and the library functions it calls.
    A library function that can raise returns a [result]. *)
Record World (V : Type) : Type := {
  environ : gmap string string;                  (* os.environ, after load_dotenv() *)
  files : gmap string string;                    (* text files open(..., "r") can read *)
  module_file : string;                          (* __file__ *)
  read_csv_bytes : list Byte.byte -> result (DataFrame V);  (* pd.read_csv(io.BytesIO(data)) *)
  decode_ignore : list Byte.byte -> string;      (* data.decode(errors='ignore') *)
  read_csv_text : string -> result (DataFrame V);           (* pd.read_csv(io.StringIO(text)) *)
  to_csv : DataFrame V -> string;                (* df.to_csv(index=False) *)
  json_dumps : list (Profile V) -> string;       (* json.dumps(schema_json, indent=2) *)
  json_loads : string -> result json;            (* json.loads(text) *)
  chat_completions_create :
    string -> CompletionRequest -> result ChatCompletion
}.

Arguments environ {V} _.
Arguments files {V} _.
Arguments module_file {V} _.
Arguments read_csv_bytes {V} _ _.
Arguments decode_ignore {V} _ _.
Arguments read_csv_text {V} _ _.
Arguments to_csv {V} _ _.
Arguments json_dumps {V} _ _.
Arguments json_loads {V} _ _.
Arguments chat_completions_create {V} _ _ _.

Definition nl : string := String "010"%char EmptyString.

Section Handler.

Context {V : Type} `{EqDecision V}.
Variable w : World V.

(** [os.getenv(name)] *)
Definition getenv (name : string) : M (option string) :=
  do! emit (Getenv name) in
  ret (environ w !! name).

(** [os.getenv(name, dflt)] *)
Definition getenv_default (name dflt : string) : M string :=
  do! emit (Getenv name) in
  ret (default dflt (environ w !! name)).

(** [with open(path, "r") as f: f.read()] *)
Definition open_read (path : string) : M string :=
  do! emit (Open path) in
  match files w !! path with
  | Some text => ret text
  | None => raise (Exception "FileNotFoundError" path)
  end.

(** A library call that may raise. *)
Definition lift {A : Type} (r : result A) : M A := ([], r).

(** [load_openai_key()] *)
Definition load_openai_key : M (option string) :=
  do! emit (Call "load_openai_key") in
  let! key := getenv "OPENAI_API_KEY" in
  match key with
  | Some (String c k) =>                  (* [if key:] a non-empty string *)
      ret (Some (Py.strip (String c k)))
  | _ =>
      let local_path :=
        Py.path_join (Py.path_join (Py.dirname (module_file w)) "..")
                     "openai_key.txt" in
      let! found :=
        try_except
          (let! text := open_read local_path in
           let k := Py.strip text in
           if Py.truthy k then ret (Some k) else ret None)
          any_Exception
          (fun _ => ret None) in
      match found with
      | Some k => ret (Some k)
      | None => ret None
      end
  end.

(** The client object: it holds the key. *)
Record OpenAI : Type := { api_key : string }.

Definition key_missing_detail : string :=
  "OPENAI_API_KEY not set. Set environment variable OPENAI_API_KEY "
  +:+ "or place the key in backend/.env or backend/../openai_key.txt (untracked).".

(** [get_openai_client()] *)
Definition get_openai_client : M OpenAI :=
  do! emit (Call "get_openai_client") in
  let! key := load_openai_key in
  match key with
  | Some (String c k) => ret {| api_key := String c k |}
  | _ => raise (HTTPException HTTP_500_INTERNAL_SERVER_ERROR key_missing_detail)
  end.

(** [build_prompt(schema_json, sample_csv, user_intent)] *)
Definition build_prompt (schema_json : list (Profile V))
    (sample_csv user_intent : string) : list Message :=
  let system :=
    "You are a BI assistant that returns ONLY valid JSON describing a dashboard. "
    +:+ "The JSON must follow the schema provided. Output nothing else." in
  let user :=
    "DATA SCHEMA:" +:+ nl
    +:+ json_dumps w schema_json +:+ nl
    +:+ nl
    +:+ "SAMPLE ROWS (CSV):" +:+ nl
    +:+ sample_csv +:+ nl
    +:+ nl
    +:+ "USER INTENT:" +:+ nl
    +:+ user_intent +:+ nl
    +:+ nl
    +:+ "CONSTRAINTS:" +:+ nl
    +:+ "- Return EXACTLY one JSON object with the keys: dashboard -> title, description, filters, views, layout." +:+ nl
    +:+ "- Each view must contain 'vega_lite' which is a valid Vega-Lite specification." +:+ nl
    +:+ "- Max 6 views. Use aggregations sensibly." +:+ nl
    +:+ "Now produce the JSON only." in
  [ {| role := "system"; content := system |};
    {| role := "user"; content := user |} ].

(** The dict [mock_dashboard] of the handler. *)
Definition mock_dashboard (intent : string) : json :=
  let point (date : string) (amount : Z) :=
    JDict [("date", JStr date); ("amount", JInt amount)] in
  let slice (category : string) (value : Z) :=
    JDict [("category", JStr category); ("value", JInt value)] in
  let field (name type : string) :=
    JDict [("field", JStr name); ("type", JStr type)] in
  JDict [
    ("title", JStr "Mock Dashboard");
    ("description", JStr ("Mock generated for intent: " +:+ intent));
    ("filters", JList []);
    ("layout", JDict [("columns", JInt 2)]);
    ("views", JList [
      JDict [
        ("id", JStr "v1");
        ("title", JStr "Mock Time Series");
        ("vega_lite", JDict [
          ("$schema", JStr "https://vega.github.io/schema/vega-lite/v5.json");
          ("data", JDict [("values", JList [
             point "2025-10-01" 100; point "2025-10-02" 150;
             point "2025-10-03" 120 ])]);
          ("mark", JStr "line");
          ("encoding", JDict [
             ("x", field "date" "temporal");
             ("y", field "amount" "quantitative") ]) ]) ];
      JDict [
        ("id", JStr "v2");
        ("title", JStr "Mock Category Breakdown");
        ("vega_lite", JDict [
          ("$schema", JStr "https://vega.github.io/schema/vega-lite/v5.json");
          ("data", JDict [("values", JList [
             slice "A" 60; slice "B" 30; slice "C" 10 ])]);
          ("mark", JStr "arc");
          ("encoding", JDict [
             ("theta", field "value" "quantitative");
             ("color", field "category" "nominal") ]) ]) ] ]) ].

(** The test of line 134 on the value of [MOCK_DASHBOARD]. *)
Definition mock_enabled (value : string) : bool :=
  Py.in_tuple (Py.lower value) ["1"; "true"; "yes"].

(** The two tests on the text of an upstream error (lines 202 and 209). *)
Definition is_quota_error (se : string) : bool :=
  Py.contains "insufficient_quota" se || Py.contains "quota" se
  || Py.contains "429" se.

Definition is_auth_error (se : string) : bool :=
  Py.contains "401" se || Py.contains "unauthorized" (Py.lower se)
  || Py.contains "invalid_api_key" (Py.lower se)
  || Py.contains "invalid" (Py.lower se).

(** The handler of the [except Exception as e] clause around the
    completion call (lines 194-219). *)
Definition upstream_failure {A : Type} (e : exn) : M A :=
  let se := str_exn e in
  do! emit (Print ("OpenAI error: " +:+ se)) in
  if is_quota_error se then
    raise (HTTPException HTTP_429_TOO_MANY_REQUESTS
             ("OpenAI request failed (quota/rate-limit): " +:+ se))
  else if is_auth_error se then
    raise (HTTPException HTTP_401_UNAUTHORIZED
             ("OpenAI request failed (auth): " +:+ se))
  else
    raise (HTTPException HTTP_502_BAD_GATEWAY
             ("OpenAI request failed: " +:+ se)).

(** [json.loads(content)]; a [content] that is not a string is a
    [TypeError]. *)
Definition loads (content : option string) : M json :=
  match content with
  | Some text => lift (json_loads w text)
  | None =>
      raise (Exception "TypeError"
               "the JSON object must be str, bytes or bytearray, not NoneType")
  end.

(** [re.search(r"(\{(?:.|\n)*\})", content)], giving [m.group(1)] or
    [None]; a [content] that is not a string is a [TypeError] (message of
    CPython 3.11 and later). *)
Definition search (content : option string) : M (option string) :=
  match content with
  | Some text => ret (re_search_braces text)
  | None =>
      raise (Exception "TypeError"
               "expected string or bytes-like object, got 'NoneType'")
  end.

(** Lines 223-241: the parse of the model's output. *)
Definition parse_content (content : option string) : M json :=
  try_except (loads content) any_Exception (fun _ =>
    let! m := search content in
    match m with
    | Some group1 =>
        try_except (lift (json_loads w group1)) any_Exception (fun _ =>
          raise (HTTPException HTTP_502_BAD_GATEWAY
                   "Model returned text but JSON extraction failed. Raw model output included."))
    | None =>
        raise (HTTPException HTTP_502_BAD_GATEWAY
                 "Failed to parse JSON from model output.")
    end).

(** [obj[key]] for a string [key], on any JSON value (the messages are
    those of CPython 3.11 and later). *)
Definition getitem (obj : json) (key : string) : M json :=
  match obj with
  | JDict items =>
      match dict_get key items with
      | Some v => ret v
      | None => raise (Exception "KeyError" ("'" +:+ key +:+ "'"))
      end
  | JList _ =>
      raise (Exception "TypeError" "list indices must be integers or slices, not str")
  | JStr _ =>
      raise (Exception "TypeError" "string indices must be integers, not 'str'")
  | JNull =>
      raise (Exception "TypeError" "'NoneType' object is not subscriptable")
  | JBool _ =>
      raise (Exception "TypeError" "'bool' object is not subscriptable")
  | JInt _ =>
      raise (Exception "TypeError" "'int' object is not subscriptable")
  | JFloat _ =>
      raise (Exception "TypeError" "'float' object is not subscriptable")
  end.

(** The keyword arguments of the completion call (lines 188-193). *)
Definition completion_request (messages : list Message) : CompletionRequest :=
  {| model := "gpt-4o-mini"; messages := messages;
     temperature := Fl 0; max_tokens := 1500 |}.

(** Lines 121-126: the upload read as a frame. *)
Definition read_upload (data : list Byte.byte) : M (DataFrame V) :=
  try_except (lift (read_csv_bytes w data)) any_Exception (fun _ =>
    let text := decode_ignore w data in
    lift (read_csv_text w text)).

(** [generate_dashboard(file, intent)], with [data] the bytes of [file]. *)
Definition generate_dashboard (data : list Byte.byte) (intent : string)
    : M json :=
  do! emit (Call "generate_dashboard") in
  let! df := read_upload data in
  let! inferred := lift (infer_schema (to_csv w) df 200) in
  let '(schema_json, sample_csv) := inferred in
  let messages := build_prompt schema_json sample_csv intent in
  let! mock := getenv_default "MOCK_DASHBOARD" "false" in
  if mock_enabled mock then
    ret (JDict [("dashboard", mock_dashboard intent)])
  else
    let! client :=
      try_except get_openai_client is_HTTPException (fun e => raise e) in
    let! resp :=
      try_except
        (do! emit (ChatCompletionsCreate (api_key client)
                     (completion_request messages)) in
         lift (chat_completions_create w (api_key client)
                 (completion_request messages)))
        any_Exception
        upstream_failure in
    let! content :=
      match choices resp with
      | c :: _ => ret c
      | [] => raise (Exception "IndexError" "list index out of range")
      end in
    let! dashboard_json := parse_content content in
    let! dashboard := getitem dashboard_json "dashboard" in
    ret (JDict [("dashboard", dashboard)]).

End Handler.

(** ** Vocabulary of the statements *)

(** [sub] occurs in [s]: some text, then [sub], then some text. *)
Definition occurs_in (sub s : string) : Prop :=
  exists pre suf : string, s = pre +:+ sub +:+ suf.

(** The quota and rate-limit markers, looked for in the text as it is. *)
Definition quota_marker (se : string) : Prop :=
  occurs_in "insufficient_quota" se \/ occurs_in "quota" se
  \/ occurs_in "429" se.

(** The authentication markers: the code 401 in the text as it is, the
    three words in the text in lower case. *)
Definition auth_marker (se : string) : Prop :=
  occurs_in "401" se \/ occurs_in "unauthorized" (Py.lower se)
  \/ occurs_in "invalid_api_key" (Py.lower se)
  \/ occurs_in "invalid" (Py.lower se).

(** Events of the credential resolver: the entry into [get_openai_client]
    or [load_openai_key], a read of [OPENAI_API_KEY], a file opened. *)
Definition is_credential_event (ev : event) : bool :=
  match ev with
  | Call f => String.eqb f "get_openai_client" || String.eqb f "load_openai_key"
  | Getenv name => String.eqb name "OPENAI_API_KEY"
  | Open _ => true
  | _ => false
  end.

(** The completion request. *)
Definition is_upstream_event (ev : event) : bool :=
  match ev with
  | ChatCompletionsCreate _ _ => true
  | _ => false
  end.

Definition is_open_event (ev : event) : bool :=
  match ev with
  | Open _ => true
  | _ => false
  end.

(** The number of completion requests in a trace. *)
Definition upstream_calls (t : list event) : nat :=
  length (List.filter is_upstream_event t).

(** [c] does not occur in [s]. *)
Fixpoint lacks (c : ascii) (s : string) : bool :=
  match s with
  | EmptyString => true
  | String a s' => negb (Ascii.eqb a c) && lacks c s'
  end.

(** The item [k] of a JSON value, when it is a dict that has it. *)
Definition field (k : string) (j : json) : option json :=
  match j with
  | JDict items => dict_get k items
  | _ => None
  end.

(** [s] is made of whitespace only. *)
Fixpoint blank (s : string) : bool :=
  match s with
  | EmptyString => true
  | String c s' => Py.isspace c && blank s'
  end.

(** Line 243: the answer once the output has parsed to [j]. *)
Definition respond (j : json) : result json :=
  match j with
  | JDict items =>
      match dict_get "dashboard" items with
      | Some d => Return (JDict [("dashboard", d)])
      | None => Raise (Exception "KeyError" "'dashboard'")
      end
  | JList _ =>
      Raise (Exception "TypeError" "list indices must be integers or slices, not str")
  | JStr _ =>
      Raise (Exception "TypeError" "string indices must be integers, not 'str'")
  | JNull =>
      Raise (Exception "TypeError" "'NoneType' object is not subscriptable")
  | JBool _ =>
      Raise (Exception "TypeError" "'bool' object is not subscriptable")
  | JInt _ =>
      Raise (Exception "TypeError" "'int' object is not subscriptable")
  | JFloat _ =>
      Raise (Exception "TypeError" "'float' object is not subscriptable")
  end.

Section Vocabulary.

Context {V : Type} `{EqDecision V}.

(** The series of column [c] in the sample window: what [df.head] keeps of
    it. *)
Definition window (df : DataFrame V) (sample_n : Z) (c : string * Series V)
    : Series V :=
  {| dtype := dtype c.2;
     values := slice_to (Z.min (len df) sample_n) (values c.2) |}.

(** The profiles of the columns of [df], one per column in order. *)
Definition profiles (df : DataFrame V) (sample_n : Z) : list (Profile V) :=
  map (fun c => infer_column (len df) c.1 (window df sample_n c)) (columns df).

(** The column labels of [df] are pairwise distinct. *)
Definition distinct_labels (df : DataFrame V) : Prop :=
  NoDup (map fst (columns df)).

(** The number of rows of the sample window: the first
    [min(len(df), sample_n)] rows, or, for a negative [sample_n], all the
    rows but the last [- sample_n]. *)
Definition window_rows (df : DataFrame V) (sample_n : Z) : nat :=
  if 0 <=? sample_n then Z.to_nat (Z.min (len df) sample_n)
  else Z.to_nat (len df + sample_n).

(** The number of missing cells among the first [k] cells of a column. *)
Definition missing_among (k : nat) (l : list (option V)) : nat :=
  length (List.filter (fun v => match v with None => true | Some _ => false end)
                      (take k l)).

(** [k / n] on floats, rounded to 3 places: not-a-number for [n = 0]. *)
Definition rounded_ratio (k n : nat) : pyfloat :=
  match n with
  | O => NaN
  | S _ => round (Fl (RN (Z.of_nat k # Pos.of_nat n))) 3
  end.

(** The missing fraction as the specification words it: over all the rows
    of the column [c] of the full frame [df]. *)
Definition full_table_missing_fraction (df : DataFrame V)
    (c : string * Series V) : pyfloat :=
  if 0 <? len df
  then rounded_ratio (missing_among (index_len df) (values c.2)) (index_len df)
  else Fl 0.

(** The missing fraction over the rows of the sample window. *)
Definition window_missing_fraction (df : DataFrame V) (sample_n : Z)
    (c : string * Series V) : pyfloat :=
  if 0 <? len df
  then rounded_ratio (missing_among (window_rows df sample_n) (values c.2))
                     (window_rows df sample_n)
  else Fl 0.

Variable w : World V.

(** The path of the fallback file. *)
Definition key_path : string :=
  Py.path_join (Py.path_join (Py.dirname (module_file w)) "..") "openai_key.txt".

(** The value line 134 tests. *)
Definition mock_value : string := default "false" (environ w !! "MOCK_DASHBOARD").

(** The request the handler sends for the frame [df] and [intent], once
    schema inference has returned. *)
Definition request_for (df : DataFrame V) (intent : string) : CompletionRequest :=
  completion_request
    (build_prompt w (profiles df 200)
                  (to_csv w (head df (Z.min (len df) 200))) intent).

(** Lines 121-130 complete: the upload reads as the frame [df] and schema
    inference returns on it. *)
Definition reads (data : list Byte.byte) (df : DataFrame V) : Prop :=
  outcome (read_upload w data) = Return df
  /\ exists r, infer_schema (to_csv w) df 200 = Return r.

(** The request reaches the live branch: lines 121-130 complete with the
    frame [df], mock mode is off and the key [key] is found. *)
Definition live (data : list Byte.byte) (df : DataFrame V) (key : string)
    : Prop :=
  reads data df
  /\ mock_enabled mock_value = false
  /\ outcome (load_openai_key w) = Return (Some key)
  /\ key <> EmptyString.

End Vocabulary.

(** ** Concrete worlds for the examples

    The theorems below hold for every [World].  To run the handler on the
    inputs the specification names, the examples use the worlds of this
    section, where [json.loads] is a reader for a fragment of JSON (objects,
    arrays, strings without escapes, integers, [true], [false], [null]). *)

Module MiniJson.

Definition dquote : ascii := "034"%char.

Definition is_ws (c : ascii) : bool :=
  Ascii.eqb c " " || Ascii.eqb c "009" || Ascii.eqb c "010" || Ascii.eqb c "013".

Fixpoint skip_ws (s : string) : string :=
  match s with
  | EmptyString => EmptyString
  | String c s' => if is_ws c then skip_ws s' else s
  end.

(** The text up to the closing quote, and what follows it. *)
Fixpoint read_string (s : string) : option (string * string) :=
  match s with
  | EmptyString => None
  | String c s' =>
      if Ascii.eqb c dquote then Some (EmptyString, s')
      else if Ascii.eqb c "092" then None
      else match read_string s' with
           | Some (t, r) => Some (String c t, r)
           | None => None
           end
  end.

Definition digit (c : ascii) : option Z :=
  let n := Py.ord c in
  if (48 <=? n) && (n <=? 57) then Some (n - 48) else None.

Fixpoint read_digits (acc : Z) (s : string) : Z * string :=
  match s with
  | EmptyString => (acc, EmptyString)
  | String c s' =>
      match digit c with
      | Some d => read_digits (10 * acc + d) s'
      | None => (acc, s)
      end
  end.

(** [d[k] = v] on the items of a dict: a key keeps its first position. *)
Fixpoint dict_set (k : string) (v : json) (items : list (string * json))
    : list (string * json) :=
  match items with
  | [] => [(k, v)]
  | (k', v') :: rest =>
      if String.eqb k k' then (k, v) :: rest else (k', v') :: dict_set k v rest
  end.

Definition drop_prefix (p s : string) : option string :=
  if Py.startswith p s
  then Some (String.substring (String.length p)
               (String.length s - String.length p) s)
  else None.

Fixpoint read_value (fuel : nat) (s : string) : option (json * string) :=
  match fuel with
  | O => None
  | S fuel =>
      match skip_ws s with
      | EmptyString => None
      | String c rest as t =>
          if Ascii.eqb c "{" then
            match skip_ws rest with
            | String c' r =>
                if Ascii.eqb c' "}" then Some (JDict [], r)
                else read_members fuel [] rest
            | EmptyString => None
            end
          else if Ascii.eqb c "[" then
            match skip_ws rest with
            | String c' r =>
                if Ascii.eqb c' "]" then Some (JList [], r)
                else read_items fuel [] rest
            | EmptyString => None
            end
          else if Ascii.eqb c dquote then
            match read_string rest with
            | Some (text, r) => Some (JStr text, r)
            | None => None
            end
          else if Ascii.eqb c "-" then
            match rest with
            | String d _ =>
                match digit d with
                | Some _ => let '(n, r) := read_digits 0 rest in Some (JInt (- n), r)
                | None => None
                end
            | EmptyString => None
            end
          else
            match digit c with
            | Some _ => let '(n, r) := read_digits 0 t in Some (JInt n, r)
            | None =>
                match drop_prefix "true" t, drop_prefix "false" t,
                      drop_prefix "null" t with
                | Some r, _, _ => Some (JBool true, r)
                | _, Some r, _ => Some (JBool false, r)
                | _, _, Some r => Some (JNull, r)
                | _, _, _ => None
                end
            end
      end
  end
with read_members (fuel : nat) (acc : list (string * json)) (s : string)
    : option (json * string) :=
  match fuel with
  | O => None
  | S fuel =>
      match skip_ws s with
      | String c rest =>
          if Ascii.eqb c dquote then
            match read_string rest with
            | Some (k, r) =>
                match skip_ws r with
                | String c1 r1 =>
                    if Ascii.eqb c1 ":" then
                      match read_value fuel r1 with
                      | Some (v, r2) =>
                          match skip_ws r2 with
                          | String c2 r3 =>
                              if Ascii.eqb c2 "," then
                                read_members fuel (dict_set k v acc) r3
                              else if Ascii.eqb c2 "}" then
                                Some (JDict (dict_set k v acc), r3)
                              else None
                          | EmptyString => None
                          end
                      | None => None
                      end
                    else None
                | EmptyString => None
                end
            | None => None
            end
          else None
      | EmptyString => None
      end
  end
with read_items (fuel : nat) (acc : list json) (s : string)
    : option (json * string) :=
  match fuel with
  | O => None
  | S fuel =>
      match read_value fuel s with
      | Some (v, r) =>
          match skip_ws r with
          | String c r1 =>
              if Ascii.eqb c "," then read_items fuel (acc ++ [v])%list r1
              else if Ascii.eqb c "]" then Some (JList (acc ++ [v])%list, r1)
              else None
          | EmptyString => None
          end
      | None => None
      end
  end.

Definition loads (s : string) : result json :=
  match read_value (S (String.length s)) s with
  | Some (j, rest) =>
      match skip_ws rest with
      | EmptyString => Return j
      | _ => Raise (Exception "JSONDecodeError" "Extra data")
      end
  | None => Raise (Exception "JSONDecodeError" "Expecting value")
  end.

(** A string between double quotes. *)
Definition q (s : string) : string :=
  String dquote s +:+ String dquote EmptyString.

End MiniJson.

Module Examples.

Import MiniJson.

(** One column, two rows, the second one missing. *)
Definition df_half : DataFrame Z :=
  {| index_len := 2;
     columns := [("a", {| dtype := "float64"; values := [Some 1; None] |})] |}.

(** Two columns and no row. *)
Definition df_empty : DataFrame Z :=
  {| index_len := 0;
     columns := [("a", {| dtype := "object"; values := [] |});
                 ("b", {| dtype := "object"; values := [] |})] |}.

(** 10,000 rows, one column that cycles through 50 values. *)
Definition df_cycle : DataFrame Z :=
  {| index_len := Z.to_nat 10000;
     columns := [("k", {| dtype := "int64";
                          values := map (fun i => Some (Z.of_nat i mod 50))
                                        (seq 0 (Z.to_nat 10000)) |})] |}.

(** 2,000 rows, one column of 2,000 different values. *)
Definition df_ids : DataFrame Z :=
  {| index_len := 2000;
     columns := [("id", {| dtype := "int64";
                           values := map (fun i => Some (Z.of_nat i))
                                         (seq 0 2000) |})] |}.

(** [df.to_csv(index=False)] for frames of integers. *)
Definition show_cell (c : option Z) : string :=
  match c with Some z => pretty z | None => EmptyString end.

Fixpoint join (sep : string) (l : list string) : string :=
  match l with
  | [] => EmptyString
  | [x] => x
  | x :: rest => x +:+ sep +:+ join sep rest
  end.

Definition csv_row (df : DataFrame Z) (i : nat) : string :=
  join "," (map (fun c => show_cell (default None (values c.2 !! i))) (columns df))
  +:+ nl.

Definition csv (df : DataFrame Z) : string :=
  join "," (map fst (columns df)) +:+ nl
  +:+ String.concat EmptyString (map (csv_row df) (seq 0 (index_len df))).

(** A world: the environment, the files, what pandas makes of the upload
    and what the completion API answers. *)
Definition world (env files : gmap string string)
    (upload : result (DataFrame Z)) (answer : result ChatCompletion)
    : World Z :=
  {| environ := env;
     files := files;
     module_file := "/srv/app/backend/main.py";
     read_csv_bytes := fun _ => upload;
     decode_ignore := fun _ => EmptyString;
     read_csv_text := fun _ => upload;
     to_csv := csv;
     json_dumps := fun schema => "[" +:+ join ", " (map p_name schema) +:+ "]";
     json_loads := loads;
     chat_completions_create := fun _ _ => answer |}.

Definition the_key_path : string := "/srv/app/backend/../openai_key.txt".

Definition env_key : gmap string string := <["OPENAI_API_KEY" := "sk-test"]> ∅.

Definition says (text : string) : result ChatCompletion :=
  Return {| choices := [Some text] |}.

(** The model output [{"dashboard": {"title": "T"}}]. *)
Definition text_T : string :=
  "{" +:+ q "dashboard" +:+ ": {" +:+ q "title" +:+ ": " +:+ q "T" +:+ "}}".

(** The same between two lines of prose. *)
Definition text_prose : string :=
  "Here you go:" +:+ nl +:+ text_T +:+ nl +:+ "Thanks".

(** An object without the key [dashboard]: [{"title": "T"}]. *)
Definition text_no_key : string :=
  "{" +:+ q "title" +:+ ": " +:+ q "T" +:+ "}".

(** Worlds with a key in the environment where the completion call raises. *)
Definition w_quota : World Z :=
  world env_key ∅ (Return df_half)
    (Raise (Exception "RateLimitError" "Error code: 429 - Rate limit reached")).

Definition w_auth : World Z :=
  world env_key ∅ (Return df_half)
    (Raise (Exception "AuthenticationError" "Incorrect API key: Invalid token")).

Definition w_down : World Z :=
  world env_key ∅ (Return df_half)
    (Raise (Exception "APIConnectionError" "Connection error.")).

(** No key anywhere; the upload reads as [df_half]. *)
Definition w_no_key : World Z :=
  world ∅ ∅ (Return df_half) (says text_T).

(** The key in the fallback file only. *)
Definition w_file_key : World Z :=
  world ∅ (<[the_key_path := " sk-file" +:+ nl]> ∅) (Return df_half) (says text_T).

(** A blank variable and a key in the fallback file. *)
Definition w_blank_env : World Z :=
  world (<["OPENAI_API_KEY" := "  "]> ∅) (<[the_key_path := "sk-file"]> ∅)
        (Return df_half) (says text_T).

(** A key with spaces around it in the variable. *)
Definition w_env_key : World Z :=
  world (<["OPENAI_API_KEY" := " sk-test "]> ∅) (<[the_key_path := "sk-file"]> ∅)
        (Return df_half) (says text_T).

(** Mock mode on, no key. *)
Definition w_mock (value : string) : World Z :=
  world (<["MOCK_DASHBOARD" := value]> ∅) ∅ (Return df_half) (says text_T).

(** Worlds with a key where the completion API answers with a text. *)
Definition w_says (text : string) : World Z :=
  world env_key ∅ (Return df_half) (says text).

(** A model output with no JSON in it, and one with braces around no JSON. *)
Definition text_plain : string := "I cannot help with that.".

Definition text_braces : string := "Sure: {oops} done".

(** Two columns with the same label and no row. *)
Definition df_dup : DataFrame Z :=
  {| index_len := 0;
     columns := [("a", {| dtype := "object"; values := [] |});
                 ("a", {| dtype := "object"; values := [] |})] |}.

(** Eighty rows, the first cell missing. *)
Definition df_80 : DataFrame Z :=
  {| index_len := 80;
     columns := [("a", {| dtype := "float64";
                          values := None :: map (fun i => Some (Z.of_nat i))
                                                (seq 1 79) |})] |}.

(** Mock mode on or off, no key, and an upload pandas cannot read. *)
Definition w_unreadable (env : gmap string string) : World Z :=
  world env ∅ (Raise (Exception "EmptyDataError" "No columns to parse from file"))
        (says text_T).

(** The object of [text_T] after prose that has braces of its own. *)
Definition text_prose_braces : string :=
  "Use {braces}: " +:+ text_T +:+ nl +:+ "Thanks".

(** The object of [text_T] before prose that has a closing brace. *)
Definition text_prose_after : string :=
  "Here you go:" +:+ nl +:+ text_T +:+ nl +:+ "Thanks :-}".

(** Two objects, one per line. *)
Definition text_two_objects : string := text_T +:+ nl +:+ text_no_key.

End Examples.

(** * Theorems *)

(** ** Strings *)

Lemma startswith_spec (p s : string) :
  Py.startswith p s = true <-> exists suf : string, s = p +:+ suf.
Proof.
  revert s. induction p as [|a p IH]; intros s; simpl.
  - split; [intros _; exists s; reflexivity | reflexivity].
  - destruct s as [|b s].
    + split; [discriminate | intros [suf Hs]; discriminate].
    + destruct (Ascii.eqb_spec a b) as [->|Hab].
      * rewrite IH. split; intros [suf Hs]; exists suf.
        -- now rewrite Hs.
        -- now inversion Hs.
      * split; [discriminate | intros [suf Hs]; inversion Hs; congruence].
Qed.

Lemma contains_spec (sub s : string) :
  Py.contains sub s = true <-> occurs_in sub s.
Proof.
  unfold occurs_in. induction s as [|c s IH]; simpl.
  - rewrite orb_false_r, startswith_spec. split.
    + intros [suf Hs]. exists EmptyString, suf. exact Hs.
    + intros [pre [suf Hs]]. destruct pre; [exists suf; exact Hs | discriminate].
  - rewrite orb_true_iff, IH, startswith_spec. split.
    + intros [[suf Hs] | [pre [suf Hs]]].
      * exists EmptyString, suf. exact Hs.
      * exists (String c pre), suf. simpl. now rewrite Hs.
    + intros [pre [suf Hs]]. destruct pre as [|c' pre].
      * left. exists suf. exact Hs.
      * right. exists pre, suf. now inversion Hs.
Qed.

Lemma is_quota_error_spec (se : string) :
  is_quota_error se = true <-> quota_marker se.
Proof.
  unfold is_quota_error, quota_marker.
  rewrite !orb_true_iff, !contains_spec. tauto.
Qed.

Lemma is_auth_error_spec (se : string) :
  is_auth_error se = true <-> auth_marker se.
Proof.
  unfold is_auth_error, auth_marker.
  rewrite !orb_true_iff, !contains_spec. tauto.
Qed.

(** ** Equations of the effect layer *)

Lemma outcome_bind {A B : Type} (m : M A) (k : A -> M B) :
  outcome (bind m k)
  = match outcome m with
    | Return a => outcome (k a)
    | Raise e => Raise e
    end.
Proof.
  destruct m as [t [a|e]]; simpl; [|reflexivity].
  now destruct (k a).
Qed.

Lemma trace_bind {A B : Type} (m : M A) (k : A -> M B) :
  trace (bind m k)
  = (trace m ++ match outcome m with
                | Return a => trace (k a)
                | Raise _ => []
                end)%list.
Proof.
  destruct m as [t [a|e]]; simpl.
  - now destruct (k a).
  - now rewrite app_nil_r.
Qed.

Lemma outcome_try_except {A : Type} (m : M A) (catches : exn -> bool)
    (h : exn -> M A) :
  outcome (try_except m catches h)
  = match outcome m with
    | Return a => Return a
    | Raise e => if catches e then outcome (h e) else Raise e
    end.
Proof.
  destruct m as [t [a|e]]; simpl; [reflexivity|].
  destruct (catches e); [|reflexivity]. now destruct (h e).
Qed.

Lemma trace_try_except {A : Type} (m : M A) (catches : exn -> bool)
    (h : exn -> M A) :
  trace (try_except m catches h)
  = (trace m ++ match outcome m with
                | Return _ => []
                | Raise e => if catches e then trace (h e) else []
                end)%list.
Proof.
  destruct m as [t [a|e]]; simpl.
  - now rewrite app_nil_r.
  - destruct (catches e); [now destruct (h e) | now rewrite app_nil_r].
Qed.

Lemma outcome_emit_bind {B : Type} (ev : event) (k : unit -> M B) :
  outcome (bind (emit ev) k) = outcome (k tt).
Proof. rewrite outcome_bind. reflexivity. Qed.

Lemma trace_emit_bind {B : Type} (ev : event) (k : unit -> M B) :
  trace (bind (emit ev) k) = ev :: trace (k tt).
Proof. rewrite trace_bind. reflexivity. Qed.

Lemma outcome_bind_Return {A B : Type} (m : M A) (k : A -> M B) (a : A) :
  outcome m = Return a -> outcome (bind m k) = outcome (k a).
Proof. intros Hm. now rewrite outcome_bind, Hm. Qed.

Lemma outcome_bind_Raise {A B : Type} (m : M A) (k : A -> M B) (e : exn) :
  outcome m = Raise e -> outcome (bind m k) = Raise e.
Proof. intros Hm. now rewrite outcome_bind, Hm. Qed.

Lemma trace_bind_Return {A B : Type} (m : M A) (k : A -> M B) (a : A) :
  outcome m = Return a -> trace (bind m k) = (trace m ++ trace (k a))%list.
Proof. intros Hm. now rewrite trace_bind, Hm. Qed.

Lemma trace_bind_Raise {A B : Type} (m : M A) (k : A -> M B) (e : exn) :
  outcome m = Raise e -> trace (bind m k) = trace m.
Proof. intros Hm. rewrite trace_bind, Hm. apply app_nil_r. Qed.

(** ** The loop of schema inference *)

Section LoopFacts.

Context {V : Type} `{EqDecision V}.

Lemma filter_label_absent (l : list (string * Series V)) (col : string) :
  ~ In col (map fst l) ->
  List.filter (fun c => String.eqb c.1 col) l = [].
Proof.
  induction l as [|a l IH]; intros Hn; [reflexivity|]. simpl in *.
  destruct (String.eqb_spec a.1 col) as [Ha|Ha]; [tauto|]. apply IH. tauto.
Qed.

Lemma filter_label_unique (l : list (string * Series V)) (c : string * Series V) :
  List.NoDup (map fst l) -> In c l ->
  List.filter (fun c' => String.eqb c'.1 c.1) l = [c].
Proof.
  induction l as [|a l IH]; intros Hnd Hc; [contradiction|].
  simpl in Hnd. inversion Hnd as [|x xs Hx Hxs]; subst.
  simpl. destruct Hc as [->|Hc].
  - rewrite String.eqb_refl. f_equal. now apply filter_label_absent.
  - destruct (String.eqb_spec a.1 c.1) as [Ha|Ha].
    + exfalso. apply Hx. rewrite Ha. now apply in_map.
    + now apply IH.
Qed.

Lemma filter_singleton_In {A : Type} (P : A -> bool) (l : list A) (c x : A) :
  In c l -> P c = true -> List.filter P l = [x] -> x = c.
Proof.
  intros Hc HP Hf.
  assert (Hin : In c (List.filter P l)) by (apply List.filter_In; tauto).
  rewrite Hf in Hin. destruct Hin as [Hin|[]]. exact Hin.
Qed.

(** The loop returns the profiles of the columns it went through. *)
Lemma infer_loop_Return (total : Z) (ds : DataFrame V)
    (cols : list (string * Series V)) (schema : list (Profile V)) :
  (forall c, In c cols -> In c (columns ds)) ->
  infer_loop total ds (map fst cols) = Return schema ->
  schema = map (fun c => infer_column total c.1 c.2) cols.
Proof.
  revert schema. induction cols as [|c cols IH]; intros schema Hsub Hret.
  - simpl in Hret. now injection Hret as <-.
  - simpl in Hret. unfold getitem_column in Hret.
    destruct (List.filter (fun c' => String.eqb c'.1 c.1) (columns ds))
      as [|x [|y rest]] eqn:Hf; try discriminate.
    destruct (infer_loop total ds (map fst cols)) as [schema'|e] eqn:Hrest;
      [|discriminate].
    injection Hret as <-. simpl.
    assert (x = c) as ->.
    { apply (filter_singleton_In (fun c' => String.eqb c'.1 c.1) (columns ds) c x).
      - apply Hsub. now left.
      - apply String.eqb_refl.
      - exact Hf. }
    f_equal. apply IH; [|reflexivity]. intros c' Hc'. apply Hsub. now right.
Qed.

(** With distinct labels the loop returns. *)
Lemma infer_loop_distinct (total : Z) (ds : DataFrame V)
    (cols : list (string * Series V)) :
  List.NoDup (map fst (columns ds)) ->
  (forall c, In c cols -> In c (columns ds)) ->
  infer_loop total ds (map fst cols)
  = Return (map (fun c => infer_column total c.1 c.2) cols).
Proof.
  intros Hnd. induction cols as [|c cols IH]; intros Hsub; [reflexivity|].
  simpl. unfold getitem_column.
  rewrite (filter_label_unique (columns ds) c Hnd) by (apply Hsub; now left).
  rewrite IH by (intros c' Hc'; apply Hsub; now right). reflexivity.
Qed.

Lemma filter_label_present (l : list (string * Series V)) (col : string) :
  In col (map fst l) -> List.filter (fun c => String.eqb c.1 col) l <> [].
Proof.
  intros Hin Hf. apply in_map_iff in Hin as (c & Hc & Hin).
  assert (Hcf : In c (List.filter (fun c' => String.eqb c'.1 col) l)).
  { apply List.filter_In. split; [exact Hin|]. rewrite Hc. apply String.eqb_refl. }
  rewrite Hf in Hcf. contradiction.
Qed.

(** Over labels of the frame the loop raises one exception only. *)
Lemma infer_loop_Raise (total : Z) (ds : DataFrame V) (labels : list string)
    (e : exn) :
  (forall col, In col labels -> In col (map fst (columns ds))) ->
  infer_loop total ds labels = Raise e ->
  e = Exception "AttributeError" "'DataFrame' object has no attribute 'dtype'".
Proof.
  induction labels as [|col labels IH]; intros Hsub; simpl; [discriminate|].
  unfold getitem_column.
  pose proof (filter_label_present (columns ds) col (Hsub col (or_introl eq_refl)))
    as Hne.
  destruct (List.filter (fun c => String.eqb c.1 col) (columns ds))
    as [|x [|y rest]]; [congruence | | now intros [= <-]].
  destruct (infer_loop total ds labels); [discriminate|].
  intros [= <-]. apply IH; [|reflexivity].
  intros col' Hcol'. apply Hsub. now right.
Qed.

Lemma head_labels (df : DataFrame V) (n : Z) :
  map fst (columns (head df n)) = map fst (columns df).
Proof. unfold head. cbn [columns]. rewrite map_map. reflexivity. Qed.

Lemma head_profiles (df : DataFrame V) (sample_n : Z) :
  map (fun c => infer_column (len df) c.1 c.2)
      (columns (head df (Z.min (len df) sample_n)))
  = profiles df sample_n.
Proof. unfold head, profiles, window. cbn [columns]. now rewrite map_map. Qed.

Variable to_csv : DataFrame V -> string.

(** What [infer_schema] returns, when it returns. *)
Lemma infer_schema_Return (df : DataFrame V) (sample_n : Z)
    (schema : list (Profile V)) (csv : string) :
  infer_schema to_csv df sample_n = Return (schema, csv) ->
  schema = profiles df sample_n
  /\ csv = to_csv (head df (Z.min (len df) sample_n)).
Proof.
  unfold infer_schema. rewrite <- (head_labels df (Z.min (len df) sample_n)).
  destruct (infer_loop _ _ _) as [schema'|e] eqn:Hloop; [|discriminate].
  intros [= <- <-]. split; [|reflexivity].
  rewrite <- head_profiles. apply (infer_loop_Return _ _ _ _ (fun c Hc => Hc) Hloop).
Qed.

(** It returns on every frame whose labels are distinct. *)
Lemma infer_schema_distinct (df : DataFrame V) (sample_n : Z) :
  distinct_labels df ->
  infer_schema to_csv df sample_n
  = Return (profiles df sample_n, to_csv (head df (Z.min (len df) sample_n))).
Proof.
  intros Hnd. unfold infer_schema.
  rewrite <- (head_labels df (Z.min (len df) sample_n)).
  rewrite infer_loop_distinct; [now rewrite head_profiles | | auto].
  rewrite head_labels. apply NoDup_ListNoDup, Hnd.
Qed.

(** It raises nothing but the [AttributeError] of line 61, and only on a
    frame with a repeated label. *)
Lemma infer_schema_Raise (df : DataFrame V) (sample_n : Z) (e : exn) :
  infer_schema to_csv df sample_n = Raise e ->
  e = Exception "AttributeError" "'DataFrame' object has no attribute 'dtype'"
  /\ ~ distinct_labels df.
Proof.
  intros Hr. split.
  - unfold infer_schema in Hr.
    destruct (infer_loop _ _ _) as [schema'|e'] eqn:Hloop; [discriminate|].
    injection Hr as <-. eapply infer_loop_Raise; [|exact Hloop].
    intros col Hcol. now rewrite head_labels.
  - intros Hnd. rewrite (infer_schema_distinct df sample_n Hnd) in Hr.
    discriminate.
Qed.

End LoopFacts.

(** ** The handler, branch by branch *)

Section HandlerFacts.

Context {V : Type} `{EqDecision V}.
Variable w : World V.

Lemma outcome_getenv (name : string) :
  outcome (getenv w name) = Return (environ w !! name).
Proof. reflexivity. Qed.

Lemma trace_getenv (name : string) : trace (getenv w name) = [Getenv name].
Proof. reflexivity. Qed.

Lemma outcome_getenv_default (name dflt : string) :
  outcome (getenv_default w name dflt) = Return (default dflt (environ w !! name)).
Proof. reflexivity. Qed.

Lemma trace_getenv_default (name dflt : string) :
  trace (getenv_default w name dflt) = [Getenv name].
Proof. reflexivity. Qed.

Lemma trace_read_upload (data : list Byte.byte) : trace (read_upload w data) = [].
Proof.
  unfold read_upload. rewrite trace_try_except. simpl.
  destruct (read_csv_bytes w data); reflexivity.
Qed.

(** What [load_openai_key] does when the variable holds a non-empty text. *)
Lemma load_openai_key_env (k : string) :
  environ w !! "OPENAI_API_KEY" = Some k -> k <> EmptyString ->
  load_openai_key w
  = ([Call "load_openai_key"; Getenv "OPENAI_API_KEY"], Return (Some (Py.strip k))).
Proof.
  intros Hk Hne. unfold load_openai_key, getenv. simpl. rewrite Hk.
  destruct k; [congruence | reflexivity].
Qed.

(** What it does when the variable is unset or empty: the file decides. *)
Lemma load_openai_key_file :
  environ w !! "OPENAI_API_KEY" = None
  \/ environ w !! "OPENAI_API_KEY" = Some EmptyString ->
  load_openai_key w
  = ([Call "load_openai_key"; Getenv "OPENAI_API_KEY"; Open (key_path w)],
     Return (match files w !! key_path w with
             | Some text =>
                 if Py.truthy (Py.strip text) then Some (Py.strip text) else None
             | None => None
             end)).
Proof.
  intros Hk. unfold load_openai_key, getenv, open_read. fold (key_path w).
  simpl. destruct Hk as [-> | ->]; simpl;
    destruct (files w !! key_path w) as [text|]; simpl;
    try destruct (Py.truthy (Py.strip text)); reflexivity.
Qed.

Lemma get_openai_client_found (key : string) :
  outcome (load_openai_key w) = Return (Some key) -> key <> EmptyString ->
  outcome (get_openai_client w) = Return {| api_key := key |}.
Proof.
  intros Hk Hne. unfold get_openai_client.
  rewrite outcome_bind. simpl. rewrite outcome_bind, Hk.
  destruct key; [congruence | reflexivity].
Qed.

Lemma get_openai_client_missing :
  outcome (load_openai_key w) = Return None
  \/ outcome (load_openai_key w) = Return (Some EmptyString) ->
  outcome (get_openai_client w)
  = Raise (HTTPException HTTP_500_INTERNAL_SERVER_ERROR key_missing_detail).
Proof.
  intros Hk. unfold get_openai_client.
  rewrite outcome_bind. simpl. rewrite outcome_bind.
  destruct Hk as [-> | ->]; reflexivity.
Qed.

Lemma trace_get_openai_client :
  trace (get_openai_client w)
  = Call "get_openai_client" :: trace (load_openai_key w).
Proof.
  unfold get_openai_client. rewrite trace_bind. simpl.
  rewrite trace_bind.
  destruct (outcome (load_openai_key w)) as [[[|c k]|]|e]; simpl;
    now rewrite app_nil_r.
Qed.

Lemma bind_lift_Return {A B : Type} (a : A) (k : A -> M B) :
  bind (lift (Return a)) k = k a.
Proof. unfold bind, lift. now destruct (k a). Qed.

(** Up to the branch on mock mode. *)
Lemma generate_dashboard_ingest (data : list Byte.byte) (intent : string)
    (df : DataFrame V) :
  reads w data df ->
  generate_dashboard w data intent
  = bind (emit (Call "generate_dashboard")) (fun _ =>
    bind (read_upload w data) (fun _ =>
    bind (getenv_default w "MOCK_DASHBOARD" "false") (fun mock =>
      if mock_enabled mock then
        ret (JDict [("dashboard", mock_dashboard intent)])
      else
        bind (try_except (get_openai_client w) is_HTTPException
                (fun e => raise e)) (fun client =>
        bind (try_except
                (bind (emit (ChatCompletionsCreate (api_key client)
                               (request_for w df intent))) (fun _ =>
                 lift (chat_completions_create w (api_key client)
                         (request_for w df intent))))
                any_Exception upstream_failure) (fun resp =>
        bind (match choices resp with
              | c :: _ => ret c
              | [] => raise (Exception "IndexError" "list index out of range")
              end) (fun content =>
        bind (parse_content w content) (fun dashboard_json =>
        bind (getitem dashboard_json "dashboard") (fun dashboard =>
        ret (JDict [("dashboard", dashboard)]))))))))).
Proof.
  intros (Hup & (schema, csv) & Hinf).
  destruct (infer_schema_Return (to_csv w) df 200 schema csv Hinf) as (-> & ->).
  unfold generate_dashboard, request_for. f_equal.
  destruct (read_upload w data) as [t [df'|e]]; simpl in Hup; [|discriminate].
  injection Hup as ->. cbn [bind]. rewrite Hinf, bind_lift_Return.
  reflexivity.
Qed.

Lemma upstream_failure_outcome {A : Type} (e : exn) :
  outcome (upstream_failure (A := A) e)
  = let se := str_exn e in
    if is_quota_error se then
      Raise (HTTPException HTTP_429_TOO_MANY_REQUESTS
               ("OpenAI request failed (quota/rate-limit): " +:+ se))
    else if is_auth_error se then
      Raise (HTTPException HTTP_401_UNAUTHORIZED
               ("OpenAI request failed (auth): " +:+ se))
    else
      Raise (HTTPException HTTP_502_BAD_GATEWAY
               ("OpenAI request failed: " +:+ se)).
Proof.
  unfold upstream_failure. rewrite outcome_emit_bind. cbv zeta.
  destruct (is_quota_error (str_exn e)); [reflexivity|].
  destruct (is_auth_error (str_exn e)); reflexivity.
Qed.

(** The outcome of a request that reaches the live branch, when the
    completion call raises. *)
Lemma generate_dashboard_upstream_raises (data : list Byte.byte)
    (intent : string) (df : DataFrame V) (key : string) (e : exn) :
  live w data df key ->
  chat_completions_create w key (request_for w df intent) = Raise e ->
  outcome (generate_dashboard w data intent)
  = let se := str_exn e in
    if is_quota_error se then
      Raise (HTTPException HTTP_429_TOO_MANY_REQUESTS
               ("OpenAI request failed (quota/rate-limit): " +:+ se))
    else if is_auth_error se then
      Raise (HTTPException HTTP_401_UNAUTHORIZED
               ("OpenAI request failed (auth): " +:+ se))
    else
      Raise (HTTPException HTTP_502_BAD_GATEWAY
               ("OpenAI request failed: " +:+ se)).
Proof.
  intros (Hup & Hmock & Hkey & Hne) Hraise.
  rewrite (generate_dashboard_ingest _ _ _ Hup).
  rewrite outcome_emit_bind, (outcome_bind_Return _ _ _ (proj1 Hup)).
  rewrite (outcome_bind_Return _ _ _ (outcome_getenv_default _ _)).
  fold (mock_value w). rewrite Hmock.
  rewrite (outcome_bind_Return _ _ {| api_key := key |}).
  2:{ rewrite outcome_try_except, (get_openai_client_found _ Hkey Hne).
      reflexivity. }
  cbn [api_key].
  rewrite outcome_bind, outcome_try_except, outcome_emit_bind.
  unfold lift at 1. unfold outcome at 1. cbn [snd]. rewrite Hraise.
  cbn [any_Exception].
  rewrite (upstream_failure_outcome (A := ChatCompletion) e). cbv zeta.
  destruct (is_quota_error (str_exn e)); [reflexivity|].
  destruct (is_auth_error (str_exn e)); reflexivity.
Qed.

(** The same when the completion call returns [resp]. *)
Lemma generate_dashboard_upstream_returns (data : list Byte.byte)
    (intent : string) (df : DataFrame V) (key : string)
    (resp : ChatCompletion) :
  live w data df key ->
  chat_completions_create w key (request_for w df intent) = Return resp ->
  outcome (generate_dashboard w data intent)
  = match choices resp with
    | [] => Raise (Exception "IndexError" "list index out of range")
    | c :: _ =>
        match outcome (parse_content w c) with
        | Raise e => Raise e
        | Return j =>
            match outcome (getitem j "dashboard") with
            | Raise e => Raise e
            | Return d => Return (JDict [("dashboard", d)])
            end
        end
    end.
Proof.
  intros (Hup & Hmock & Hkey & Hne) Hresp.
  rewrite (generate_dashboard_ingest _ _ _ Hup).
  rewrite outcome_emit_bind, (outcome_bind_Return _ _ _ (proj1 Hup)).
  rewrite (outcome_bind_Return _ _ _ (outcome_getenv_default _ _)).
  fold (mock_value w). rewrite Hmock.
  rewrite (outcome_bind_Return _ _ {| api_key := key |}).
  2:{ rewrite outcome_try_except, (get_openai_client_found _ Hkey Hne).
      reflexivity. }
  cbn [api_key].
  rewrite (outcome_bind_Return _ _ resp).
  2:{ rewrite outcome_try_except, outcome_emit_bind.
      unfold lift, outcome. cbn [snd]. now rewrite Hresp. }
  destruct (choices resp) as [|c rest].
  - reflexivity.
  - rewrite (outcome_bind_Return _ _ c) by reflexivity.
    rewrite outcome_bind.
    destruct (outcome (parse_content w c)) as [j|e]; [|reflexivity].
    rewrite outcome_bind.
    destruct (outcome (getitem j "dashboard")) as [d|e]; reflexivity.
Qed.

End HandlerFacts.

(** * The claims *)

(** ** Upstream failures *)

(** C2. When the completion call raises an exception whose text is [se],
    the handler answers by the text alone and in this order: a quota or
    rate-limit marker ("insufficient_quota", "quota", "429") gives 429;
    otherwise an authentication marker ("401", or "unauthorized",
    "invalid_api_key", "invalid" in any case) gives 401; otherwise 502. *)
Theorem upstream_failure_classified {V : Type} `{EqDecision V}
    (w : World V) (data : list Byte.byte) (intent : string)
    (df : DataFrame V) (key : string) (e : exn) :
  live w data df key ->
  chat_completions_create w key (request_for w df intent) = Raise e ->
  let se := str_exn e in
  let r := outcome (generate_dashboard w data intent) in
  (quota_marker se ->
     r = Raise (HTTPException 429
                  ("OpenAI request failed (quota/rate-limit): " +:+ se)))
  /\ (~ quota_marker se -> auth_marker se ->
        r = Raise (HTTPException 401 ("OpenAI request failed (auth): " +:+ se)))
  /\ (~ quota_marker se -> ~ auth_marker se ->
        r = Raise (HTTPException 502 ("OpenAI request failed: " +:+ se))).
Proof.
  intros Hlive Hraise se r. subst r.
  rewrite (generate_dashboard_upstream_raises w data intent df key e Hlive Hraise).
  cbv zeta. fold se.
  rewrite <- is_quota_error_spec, <- is_auth_error_spec.
  destruct (is_quota_error se), (is_auth_error se);
    repeat split; intros; try reflexivity; congruence.
Qed.

Lemma reads_df_half (env files : gmap string string)
    (answer : result ChatCompletion) :
  reads (Examples.world env files (Return Examples.df_half) answer)
        [] Examples.df_half.
Proof.
  split; [reflexivity|]. eexists. vm_compute. reflexivity.
Defined.

Lemma live_env_key (answer : result ChatCompletion) :
  live (Examples.world Examples.env_key ∅ (Return Examples.df_half) answer)
       [] Examples.df_half "sk-test".
Proof.
  split; [apply reads_df_half|]. split; [vm_compute; reflexivity|].
  split; [vm_compute; reflexivity | discriminate].
Defined.

Lemma upstream_failure_classified_witness :
  outcome (generate_dashboard Examples.w_quota [] "sales by month")
  = Raise (HTTPException 429
      "OpenAI request failed (quota/rate-limit): Error code: 429 - Rate limit reached")
  /\ outcome (generate_dashboard Examples.w_auth [] "sales by month")
     = Raise (HTTPException 401
         "OpenAI request failed (auth): Incorrect API key: Invalid token")
  /\ outcome (generate_dashboard Examples.w_down [] "sales by month")
     = Raise (HTTPException 502 "OpenAI request failed: Connection error.").
Proof.
  split; [|split].
  - refine (proj1 (upstream_failure_classified Examples.w_quota [] "sales by month"
             Examples.df_half "sk-test" _ (live_env_key _) eq_refl) _).
    right; right. exists "Error code: ", " - Rate limit reached". reflexivity.
  - refine (proj1 (proj2 (upstream_failure_classified Examples.w_auth []
             "sales by month" Examples.df_half "sk-test" _ (live_env_key _) eq_refl))
             _ _).
    + intros Hq. apply is_quota_error_spec in Hq. vm_compute in Hq. discriminate.
    + right; right; right. exists "incorrect api key: ", " token". reflexivity.
  - refine (proj2 (proj2 (upstream_failure_classified Examples.w_down []
             "sales by month" Examples.df_half "sk-test" _ (live_env_key _) eq_refl))
             _ _).
    + intros Hq. apply is_quota_error_spec in Hq. vm_compute in Hq. discriminate.
    + intros Ha. apply is_auth_error_spec in Ha. vm_compute in Ha. discriminate.
Defined.

(** ** The key loader *)

Lemma lstrip_blank (s : string) : blank s = true -> Py.lstrip s = EmptyString.
Proof.
  induction s as [|c s IH]; simpl; [reflexivity|].
  intros Hb. apply andb_true_iff in Hb as [Hc Hs]. rewrite Hc. now apply IH.
Qed.

Lemma strip_blank (s : string) : blank s = true -> Py.strip s = EmptyString.
Proof. intros Hb. unfold Py.strip. now rewrite lstrip_blank. Qed.

(** C9. [load_openai_key] takes the environment variable first (stripped,
    the file is not opened); when the variable is unset or empty it takes
    the stripped content of the fallback file; when the file is missing too
    it returns [None]; and it never raises. *)
Theorem load_openai_key_resolution {V : Type} `{EqDecision V} (w : World V) :
  (forall k : string,
     environ w !! "OPENAI_API_KEY" = Some k -> k <> EmptyString ->
     outcome (load_openai_key w) = Return (Some (Py.strip k))
     /\ Forall (fun ev => is_open_event ev = false) (trace (load_openai_key w)))
  /\ (forall text : string,
        environ w !! "OPENAI_API_KEY" = None
        \/ environ w !! "OPENAI_API_KEY" = Some EmptyString ->
        files w !! key_path w = Some text -> Py.strip text <> EmptyString ->
        outcome (load_openai_key w) = Return (Some (Py.strip text)))
  /\ (environ w !! "OPENAI_API_KEY" = None
      \/ environ w !! "OPENAI_API_KEY" = Some EmptyString ->
      files w !! key_path w = None ->
      outcome (load_openai_key w) = Return None)
  /\ (exists r : option string, outcome (load_openai_key w) = Return r).
Proof.
  split; [|split; [|split]].
  - intros k Henv Hne. rewrite (load_openai_key_env w k Henv Hne).
    split; [reflexivity | repeat constructor].
  - intros text Henv Hfile Hne. rewrite (load_openai_key_file w Henv), Hfile.
    destruct (Py.strip text); [congruence | reflexivity].
  - intros Henv Hfile. now rewrite (load_openai_key_file w Henv), Hfile.
  - destruct (environ w !! "OPENAI_API_KEY") as [[|c k]|] eqn:Henv.
    + rewrite (load_openai_key_file w) by (now right). eauto.
    + rewrite (load_openai_key_env w (String c k) Henv) by discriminate. eauto.
    + rewrite (load_openai_key_file w) by (now left). eauto.
Qed.

Lemma load_openai_key_resolution_witness :
  outcome (load_openai_key Examples.w_env_key) = Return (Some "sk-test")
  /\ outcome (load_openai_key Examples.w_file_key) = Return (Some "sk-file")
  /\ outcome (load_openai_key Examples.w_no_key) = Return None.
Proof.
  split; [|split].
  - apply (proj1 (load_openai_key_resolution Examples.w_env_key) " sk-test ");
      [vm_compute; reflexivity | discriminate].
  - apply (proj1 (proj2 (load_openai_key_resolution Examples.w_file_key))
             (" sk-file" +:+ nl));
      [left; vm_compute; reflexivity | vm_compute; reflexivity | discriminate].
  - apply (proj1 (proj2 (proj2 (load_openai_key_resolution Examples.w_no_key))));
      [left; vm_compute; reflexivity | vm_compute; reflexivity].
Defined.

(** C10. A variable set to a non-empty text made of whitespace only makes
    [load_openai_key] return the empty string without opening the fallback
    file, whatever the file holds, and [get_openai_client] then raises the
    configuration error. *)
Theorem blank_variable_masks_file {V : Type} `{EqDecision V} (w : World V)
    (k : string) :
  environ w !! "OPENAI_API_KEY" = Some k -> k <> EmptyString ->
  blank k = true ->
  load_openai_key w
  = ([Call "load_openai_key"; Getenv "OPENAI_API_KEY"], Return (Some EmptyString))
  /\ outcome (get_openai_client w)
     = Raise (HTTPException 500 key_missing_detail).
Proof.
  intros Henv Hne Hblank.
  assert (Hload : load_openai_key w
    = ([Call "load_openai_key"; Getenv "OPENAI_API_KEY"], Return (Some EmptyString))).
  { rewrite (load_openai_key_env w k Henv Hne). now rewrite strip_blank. }
  split; [exact Hload|].
  apply get_openai_client_missing. right. now rewrite Hload.
Qed.

Lemma blank_variable_masks_file_witness :
  files Examples.w_blank_env !! key_path Examples.w_blank_env = Some "sk-file"
  /\ load_openai_key Examples.w_blank_env
     = ([Call "load_openai_key"; Getenv "OPENAI_API_KEY"], Return (Some EmptyString))
  /\ outcome (get_openai_client Examples.w_blank_env)
     = Raise (HTTPException 500 key_missing_detail).
Proof.
  split; [vm_compute; reflexivity|].
  apply (blank_variable_masks_file Examples.w_blank_env "  ");
    [vm_compute; reflexivity | discriminate | reflexivity].
Defined.

(** ** Mock mode and the missing credential *)

Lemma pair_trace_outcome {A : Type} (m : M A) : m = (trace m, outcome m).
Proof. now destruct m. Qed.

Lemma generate_dashboard_mock {V : Type} `{EqDecision V} (w : World V)
    (data : list Byte.byte) (intent : string) (df : DataFrame V) :
  reads w data df ->
  mock_enabled (mock_value w) = true ->
  generate_dashboard w data intent
  = ([Call "generate_dashboard"; Getenv "MOCK_DASHBOARD"],
     Return (JDict [("dashboard", mock_dashboard intent)])).
Proof.
  intros Hup Hmock.
  rewrite (pair_trace_outcome (generate_dashboard w data intent)).
  rewrite (generate_dashboard_ingest w data intent df Hup). f_equal.
  - rewrite trace_emit_bind, (trace_bind_Return _ _ _ (proj1 Hup)), trace_read_upload.
    rewrite (trace_bind_Return _ _ _ (outcome_getenv_default w _ _)).
    fold (mock_value w). rewrite Hmock. reflexivity.
  - rewrite outcome_emit_bind, (outcome_bind_Return _ _ _ (proj1 Hup)).
    rewrite (outcome_bind_Return _ _ _ (outcome_getenv_default w _ _)).
    fold (mock_value w). rewrite Hmock. reflexivity.
Qed.

Lemma generate_dashboard_no_key {V : Type} `{EqDecision V} (w : World V)
    (data : list Byte.byte) (intent : string) (df : DataFrame V) :
  reads w data df ->
  mock_enabled (mock_value w) = false ->
  outcome (load_openai_key w) = Return None
  \/ outcome (load_openai_key w) = Return (Some EmptyString) ->
  generate_dashboard w data intent
  = ((Call "generate_dashboard" :: Getenv "MOCK_DASHBOARD"
      :: Call "get_openai_client" :: trace (load_openai_key w))%list,
     Raise (HTTPException 500 key_missing_detail)).
Proof.
  intros Hup Hmock Hkey.
  pose proof (get_openai_client_missing w Hkey) as Hclient.
  assert (Htry : outcome (try_except (get_openai_client w) is_HTTPException
                            (fun e => raise e))
                 = Raise (HTTPException 500 key_missing_detail)).
  { rewrite outcome_try_except, Hclient. reflexivity. }
  rewrite (pair_trace_outcome (generate_dashboard w data intent)).
  rewrite (generate_dashboard_ingest w data intent df Hup). f_equal.
  - rewrite trace_emit_bind, (trace_bind_Return _ _ _ (proj1 Hup)), trace_read_upload.
    rewrite (trace_bind_Return _ _ _ (outcome_getenv_default w _ _)).
    fold (mock_value w). rewrite Hmock.
    rewrite (trace_bind_Raise _ _ _ Htry), trace_try_except, Hclient.
    rewrite trace_get_openai_client. simpl. now rewrite app_nil_r.
  - rewrite outcome_emit_bind, (outcome_bind_Return _ _ _ (proj1 Hup)).
    rewrite (outcome_bind_Return _ _ _ (outcome_getenv_default w _ _)).
    fold (mock_value w). rewrite Hmock.
    now rewrite (outcome_bind_Raise _ _ _ Htry).
Qed.

(** A request that stops at the upload or at schema inference. *)
Lemma generate_dashboard_stops {V : Type} `{EqDecision V} (w : World V)
    (data : list Byte.byte) (intent : string) :
  (forall e : exn,
     outcome (read_upload w data) = Raise e ->
     generate_dashboard w data intent = ([Call "generate_dashboard"], Raise e))
  /\ (forall (df : DataFrame V) (e : exn),
        outcome (read_upload w data) = Return df ->
        infer_schema (to_csv w) df 200 = Raise e ->
        generate_dashboard w data intent
        = ([Call "generate_dashboard"], Raise e)).
Proof.
  split.
  - intros e Hup. rewrite (pair_trace_outcome (generate_dashboard w data intent)).
    unfold generate_dashboard. f_equal.
    + rewrite trace_emit_bind, (trace_bind_Raise _ _ _ Hup), trace_read_upload.
      reflexivity.
    + now rewrite outcome_emit_bind, (outcome_bind_Raise _ _ _ Hup).
  - intros df e Hup Hinf.
    rewrite (pair_trace_outcome (generate_dashboard w data intent)).
    unfold generate_dashboard. f_equal.
    + rewrite trace_emit_bind, (trace_bind_Return _ _ _ Hup), trace_read_upload.
      rewrite (trace_bind_Raise _ _ e) by (now rewrite Hinf).
      reflexivity.
    + rewrite outcome_emit_bind, (outcome_bind_Return _ _ _ Hup).
      apply outcome_bind_Raise. now rewrite Hinf.
Qed.

(** Lines 121-130 complete, or the request stops there. *)
Lemma reads_or_stops {V : Type} `{EqDecision V} (w : World V)
    (data : list Byte.byte) (intent : string) :
  (exists df : DataFrame V, reads w data df)
  \/ (exists e : exn,
        generate_dashboard w data intent = ([Call "generate_dashboard"], Raise e)
        /\ (outcome (read_upload w data) = Raise e
            \/ exists df : DataFrame V,
                 outcome (read_upload w data) = Return df
                 /\ infer_schema (to_csv w) df 200 = Raise e)).
Proof.
  destruct (generate_dashboard_stops w data intent) as [Hstop1 Hstop2].
  destruct (outcome (read_upload w data)) as [df|e] eqn:Hup.
  - destruct (infer_schema (to_csv w) df 200) as [r|e] eqn:Hinf.
    + left. exists df. split; [exact Hup | eauto].
    + right. exists e. split; [now apply (Hstop2 df) | right; eauto].
  - right. exists e. split; [now apply Hstop1 | now left].
Qed.

(** C8 (as amended). With mock mode off and no credential to be found (the
    variable unset or empty, the fallback file missing or blank), no
    request makes a completion call; and a request for which lines 121-130
    complete (the upload reads as a table and schema inference returns)
    fails with the configuration error, status 500. *)
Theorem missing_credential_is_server_error {V : Type} `{EqDecision V}
    (w : World V) (data : list Byte.byte) (intent : string) :
  mock_enabled (mock_value w) = false ->
  environ w !! "OPENAI_API_KEY" = None
  \/ environ w !! "OPENAI_API_KEY" = Some EmptyString ->
  files w !! key_path w = None
  \/ (exists text : string,
        files w !! key_path w = Some text /\ Py.strip text = EmptyString) ->
  (forall df : DataFrame V,
     reads w data df ->
     outcome (generate_dashboard w data intent)
     = Raise (HTTPException 500 key_missing_detail)
     /\ http_status (outcome (generate_dashboard w data intent)) = 500)
  /\ Forall (fun ev => is_upstream_event ev = false)
            (trace (generate_dashboard w data intent)).
Proof.
  intros Hmock Henv Hfile.
  assert (Hload : load_openai_key w
    = ([Call "load_openai_key"; Getenv "OPENAI_API_KEY"; Open (key_path w)],
       Return None)).
  { rewrite (load_openai_key_file w Henv).
    destruct Hfile as [-> | (text & -> & ->)]; reflexivity. }
  assert (Hgd : forall df : DataFrame V,
            reads w data df ->
            generate_dashboard w data intent
            = ([Call "generate_dashboard"; Getenv "MOCK_DASHBOARD";
                Call "get_openai_client"; Call "load_openai_key";
                Getenv "OPENAI_API_KEY"; Open (key_path w)],
               Raise (HTTPException 500 key_missing_detail))).
  { intros df Hreads.
    rewrite (generate_dashboard_no_key w data intent df Hreads Hmock)
      by (left; now rewrite Hload).
    now rewrite Hload. }
  split.
  - intros df Hreads. rewrite (Hgd df Hreads). split; reflexivity.
  - destruct (reads_or_stops w data intent) as [[df Hreads] | (e & -> & _)].
    + rewrite (Hgd df Hreads). repeat constructor.
    + repeat constructor.
Qed.

Lemma missing_credential_is_server_error_witness :
  outcome (generate_dashboard Examples.w_no_key [] "sales by month")
  = Raise (HTTPException 500 key_missing_detail)
  /\ http_status (outcome (generate_dashboard Examples.w_no_key [] "sales by month"))
     = 500.
Proof.
  refine (proj1 (missing_credential_is_server_error Examples.w_no_key []
                   "sales by month" _ _ _) Examples.df_half (reads_df_half _ _ _)).
  - vm_compute. reflexivity.
  - left. vm_compute. reflexivity.
  - left. vm_compute. reflexivity.
Defined.

(** C8, the counterexample: mock mode off, no credential, and an upload
    pandas cannot read.  The request ends with the exception of the reader,
    which is not the configuration error, and the credential resolver has
    not run. *)
Lemma missing_credential_unreadable_upload :
  mock_enabled (mock_value (Examples.w_unreadable ∅)) = false
  /\ outcome (load_openai_key (Examples.w_unreadable ∅)) = Return None
  /\ generate_dashboard (Examples.w_unreadable ∅) [] "sales"
     = ([Call "generate_dashboard"],
        Raise (Exception "EmptyDataError" "No columns to parse from file"))
  /\ outcome (generate_dashboard (Examples.w_unreadable ∅) [] "sales")
     <> Raise (HTTPException 500 key_missing_detail).
Proof.
  repeat split; try (vm_compute; reflexivity).
  vm_compute. discriminate.
Qed.

Lemma mock_enabled_lower (value : string) :
  Py.lower value = "1" \/ Py.lower value = "true" \/ Py.lower value = "yes" ->
  mock_enabled value = true.
Proof.
  unfold mock_enabled. intros [-> | [-> | ->]]; reflexivity.
Qed.

(** C3 (as amended). With [MOCK_DASHBOARD] set to "1", "true" or "yes" in
    any case, no request uses the credential resolver or the completion
    API; and a request for which lines 121-130 complete (the upload reads
    as a table and schema inference returns) gets the example dashboard, of
    which the description is "Mock generated for intent: " followed by the
    intent of the request and every other item is fixed, the only events
    being the entry into the handler and the read of [MOCK_DASHBOARD]. *)
Theorem mock_mode_short_circuits {V : Type} `{EqDecision V} (w : World V)
    (data : list Byte.byte) (intent : string) (value : string) :
  environ w !! "MOCK_DASHBOARD" = Some value ->
  Py.lower value = "1" \/ Py.lower value = "true" \/ Py.lower value = "yes" ->
  (forall df : DataFrame V,
     reads w data df ->
     generate_dashboard w data intent
     = ([Call "generate_dashboard"; Getenv "MOCK_DASHBOARD"],
        Return (JDict [("dashboard", mock_dashboard intent)])))
  /\ Forall (fun ev => is_credential_event ev = false
                       /\ is_upstream_event ev = false)
            (trace (generate_dashboard w data intent))
  /\ field "description" (mock_dashboard intent)
     = Some (JStr ("Mock generated for intent: " +:+ intent))
  /\ (forall (k intent' : string), k <> "description" ->
        field k (mock_dashboard intent) = field k (mock_dashboard intent')).
Proof.
  intros Henv Hvalue.
  assert (Hmock : mock_enabled (mock_value w) = true).
  { unfold mock_value. rewrite Henv. now apply mock_enabled_lower. }
  split; [|split; [|split]].
  - intros df Hreads. apply (generate_dashboard_mock w data intent df Hreads Hmock).
  - destruct (reads_or_stops w data intent) as [[df Hreads] | (e & -> & _)].
    + rewrite (generate_dashboard_mock w data intent df Hreads Hmock).
      repeat constructor.
    + repeat constructor.
  - reflexivity.
  - intros k intent' Hk. unfold field, mock_dashboard. cbn [dict_get].
    destruct (String.eqb_spec k "description") as [->|_]; [congruence|].
    reflexivity.
Qed.

Lemma mock_mode_short_circuits_witness :
  Forall (fun value =>
            generate_dashboard (Examples.w_mock value) [] "sales by month"
            = ([Call "generate_dashboard"; Getenv "MOCK_DASHBOARD"],
               Return (JDict [("dashboard", mock_dashboard "sales by month")])))
         ["1"; "true"; "YES"].
Proof.
  apply Forall_cons_2; [|apply Forall_cons_2; [|apply Forall_cons_2; [|apply Forall_nil_2]]].
  - refine (proj1 (mock_mode_short_circuits (Examples.w_mock "1") []
                     "sales by month" "1" _ _) Examples.df_half (reads_df_half _ _ _));
      [vm_compute; reflexivity | left; reflexivity].
  - refine (proj1 (mock_mode_short_circuits (Examples.w_mock "true") []
                     "sales by month" "true" _ _) Examples.df_half (reads_df_half _ _ _));
      [vm_compute; reflexivity | right; left; reflexivity].
  - refine (proj1 (mock_mode_short_circuits (Examples.w_mock "YES") []
                     "sales by month" "YES" _ _) Examples.df_half (reads_df_half _ _ _));
      [vm_compute; reflexivity | right; right; reflexivity].
Defined.

(** C3, the counterexample.  In one world with mock mode on, two requests
    that differ by their intent get two different dashboards, so the
    dashboard returned is not a fixed one; and with mock mode on a request
    whose upload pandas cannot read gets no dashboard at all: it ends with
    the exception of the reader. *)
Lemma mock_dashboard_depends_on_intent :
  outcome (generate_dashboard (Examples.w_mock "1") [] "sales")
  = Return (JDict [("dashboard", mock_dashboard "sales")])
  /\ outcome (generate_dashboard (Examples.w_mock "1") [] "costs")
     = Return (JDict [("dashboard", mock_dashboard "costs")])
  /\ outcome (generate_dashboard (Examples.w_mock "1") [] "sales")
     <> outcome (generate_dashboard (Examples.w_mock "1") [] "costs")
  /\ mock_enabled
       (mock_value (Examples.w_unreadable (<["MOCK_DASHBOARD" := "1"]> ∅))) = true
  /\ generate_dashboard (Examples.w_unreadable (<["MOCK_DASHBOARD" := "1"]> ∅))
       [] "sales"
     = ([Call "generate_dashboard"],
        Raise (Exception "EmptyDataError" "No columns to parse from file")).
Proof.
  split; [vm_compute; reflexivity|]. split; [vm_compute; reflexivity|].
  split; [vm_compute; intros Heq; congruence|].
  split; vm_compute; reflexivity.
Qed.

(** ** The extraction fallback *)

Lemma from_first_lbrace_app (pre t : string) :
  lacks "{" pre = true ->
  from_first_lbrace (pre +:+ String "{" t) = Some (String "{" t).
Proof.
  induction pre as [|c pre IH]; simpl; [reflexivity|].
  intros Hl. apply andb_true_iff in Hl as [Hc Hpre].
  apply negb_true_iff in Hc. rewrite Hc. now apply IH.
Qed.

Lemma to_last_rbrace_lacks (suf : string) :
  lacks "}" suf = true -> to_last_rbrace suf = None.
Proof.
  induction suf as [|c suf IH]; simpl; [reflexivity|].
  intros Hl. apply andb_true_iff in Hl as [Hc Hsuf].
  apply negb_true_iff in Hc. now rewrite (IH Hsuf), Hc.
Qed.

Lemma to_last_rbrace_app (body suf : string) :
  lacks "}" suf = true ->
  to_last_rbrace (body +:+ String "}" suf) = Some (body +:+ String "}" EmptyString).
Proof.
  intros Hl. induction body as [|c body IH]; simpl.
  - now rewrite (to_last_rbrace_lacks suf Hl).
  - now rewrite IH.
Qed.

(** The match runs from the first opening brace to the last closing one. *)
Lemma re_search_braces_app (pre body suf : string) :
  lacks "{" pre = true -> lacks "}" suf = true ->
  re_search_braces (pre +:+ String "{" (body +:+ String "}" suf))
  = Some (String "{" (body +:+ String "}" EmptyString)).
Proof.
  intros Hpre Hsuf. unfold re_search_braces.
  rewrite (from_first_lbrace_app pre _ Hpre).
  now rewrite (to_last_rbrace_app body suf Hsuf).
Qed.

Lemma from_first_lbrace_Some (s t : string) :
  from_first_lbrace s = Some t ->
  exists pre rest : string,
    s = pre +:+ t /\ lacks "{" pre = true /\ t = String "{" rest.
Proof.
  revert t. induction s as [|c s IH]; simpl; intros t Ht; [discriminate|].
  destruct (Ascii.eqb_spec c "{") as [->|Hc].
  - injection Ht as <-. exists EmptyString, s. repeat split.
  - destruct (IH t Ht) as (pre & rest & -> & Hpre & ->).
    exists (String c pre), rest. repeat split. simpl.
    rewrite Hpre, andb_true_r. apply negb_true_iff.
    now apply Ascii.eqb_neq.
Qed.

Lemma to_last_rbrace_Some (s r : string) :
  to_last_rbrace s = Some r ->
  exists body suf : string,
    s = r +:+ suf /\ lacks "}" suf = true /\ r = body +:+ String "}" EmptyString.
Proof.
  revert r. induction s as [|c s IH]; simpl; intros r Hr; [discriminate|].
  destruct (to_last_rbrace s) as [r'|] eqn:Hs.
  - injection Hr as <-. destruct (IH r' eq_refl) as (body & suf & -> & Hsuf & ->).
    exists (String c body), suf. repeat split. assumption.
  - destruct (Ascii.eqb_spec c "}") as [->|Hc]; [|discriminate].
    injection Hr as <-. exists EmptyString, s. repeat split.
    clear IH. induction s as [|a s IHs]; [reflexivity|].
    simpl in Hs. destruct (to_last_rbrace s); [discriminate|].
    destruct (Ascii.eqb_spec a "}"); [discriminate|].
    simpl. rewrite IHs by reflexivity. rewrite andb_true_r.
    apply negb_true_iff. now apply Ascii.eqb_neq.
Qed.

Lemma re_search_braces_Some (s span : string) :
  re_search_braces s = Some span ->
  exists pre body suf : string,
    s = pre +:+ span +:+ suf
    /\ lacks "{" pre = true /\ lacks "}" suf = true
    /\ span = String "{" (body +:+ String "}" EmptyString).
Proof.
  unfold re_search_braces. intros Hs.
  destruct (from_first_lbrace s) as [[|c rest]|] eqn:Hf; try discriminate.
  destruct (to_last_rbrace rest) as [r|] eqn:Hl; [|discriminate].
  injection Hs as <-.
  destruct (from_first_lbrace_Some s _ Hf) as (pre & rest' & -> & Hpre & Hc).
  injection Hc as -> <-.
  destruct (to_last_rbrace_Some rest r Hl) as (body & suf & -> & Hsuf & ->).
  exists pre, body, suf. repeat split; assumption.
Qed.

(** ** Parsing the model's output *)

Section ParseFacts.

Context {V : Type} `{EqDecision V}.
Variable w : World V.

Lemma parse_content_direct (text : string) (j : json) :
  json_loads w text = Return j ->
  parse_content w (Some text) = ([], Return j).
Proof. intros Hj. unfold parse_content, loads, lift. simpl. now rewrite Hj. Qed.

Lemma parse_content_fallback (text : string) (e : exn) :
  json_loads w text = Raise e ->
  parse_content w (Some text)
  = ([],
     match re_search_braces text with
     | Some span =>
         match json_loads w span with
         | Return j => Return j
         | Raise _ =>
             Raise (HTTPException 502
                      "Model returned text but JSON extraction failed. Raw model output included.")
         end
     | None =>
         Raise (HTTPException 502 "Failed to parse JSON from model output.")
     end).
Proof.
  intros He. unfold parse_content, loads, search, lift. simpl. rewrite He. simpl.
  destruct (re_search_braces text) as [span|]; [|reflexivity].
  simpl. destruct (json_loads w span); reflexivity.
Qed.

Lemma getitem_dashboard (j : json) :
  match outcome (getitem j "dashboard") with
  | Raise e => Raise e
  | Return d => Return (JDict [("dashboard", d)])
  end = respond j.
Proof.
  destruct j; simpl; try reflexivity.
  destruct (dict_get "dashboard" items); reflexivity.
Qed.

(** The outcome of a live request whose completion call returns. *)
Lemma generate_dashboard_answer (data : list Byte.byte) (intent : string)
    (df : DataFrame V) (key : string) (resp : ChatCompletion)
    (content : option string) (rest : list (option string)) :
  live w data df key ->
  chat_completions_create w key (request_for w df intent) = Return resp ->
  choices resp = content :: rest ->
  outcome (generate_dashboard w data intent)
  = match outcome (parse_content w content) with
    | Raise e => Raise e
    | Return j => respond j
    end.
Proof.
  intros Hlive Hresp Hchoices.
  rewrite (generate_dashboard_upstream_returns w data intent df key resp Hlive Hresp).
  rewrite Hchoices.
  destruct (outcome (parse_content w content)) as [j|e]; [|reflexivity].
  apply getitem_dashboard.
Qed.

End ParseFacts.

Lemma live_says (text : string) :
  live (Examples.w_says text) [] Examples.df_half "sk-test".
Proof. apply live_env_key. Defined.

(** C4. Once the model's output has parsed to [J]: when [J] is an object
    with the key "dashboard" the handler returns the envelope
    [{"dashboard": J["dashboard"]}]; when [J] has no such key the lookup
    raises an exception that is not handled (a [KeyError] for an object
    without the key), which FastAPI answers with status 500; no default
    stands in for the missing value. *)
Theorem dashboard_key_lookup {V : Type} `{EqDecision V} (w : World V)
    (data : list Byte.byte) (intent : string) (df : DataFrame V)
    (key : string) (resp : ChatCompletion) (content : option string)
    (rest : list (option string)) (J : json) :
  live w data df key ->
  chat_completions_create w key (request_for w df intent) = Return resp ->
  choices resp = content :: rest ->
  outcome (parse_content w content) = Return J ->
  let r := outcome (generate_dashboard w data intent) in
  (forall d : json,
     field "dashboard" J = Some d -> r = Return (JDict [("dashboard", d)]))
  /\ (field "dashboard" J = None ->
      (exists class message : string, r = Raise (Exception class message))
      /\ http_status r = 500)
  /\ (forall items : list (string * json),
        J = JDict items -> dict_get "dashboard" items = None ->
        r = Raise (Exception "KeyError" "'dashboard'")).
Proof.
  intros Hlive Hresp Hchoices Hparse r. subst r.
  rewrite (generate_dashboard_answer w data intent df key resp content rest
             Hlive Hresp Hchoices), Hparse.
  split; [|split].
  - intros d Hd. destruct J; simpl in Hd; try discriminate.
    simpl. now rewrite Hd.
  - intros Hnone. destruct J; simpl in *; try rewrite Hnone; eauto.
  - intros items -> Hnone. simpl. now rewrite Hnone.
Qed.

Lemma dashboard_key_lookup_witness :
  (exists d : json,
     outcome (generate_dashboard (Examples.w_says Examples.text_T) [] "sales by month")
     = Return (JDict [("dashboard", d)])
     /\ field "title" d = Some (JStr "T"))
  /\ outcome (generate_dashboard (Examples.w_says Examples.text_no_key) []
                "sales by month")
     = Raise (Exception "KeyError" "'dashboard'").
Proof.
  split.
  - exists (JDict [("title", JStr "T")]). split; [|reflexivity].
    refine (proj1 (dashboard_key_lookup (Examples.w_says Examples.text_T) []
              "sales by month" Examples.df_half "sk-test"
              {| choices := [Some Examples.text_T] |} (Some Examples.text_T) []
              (JDict [("dashboard", JDict [("title", JStr "T")])])
              (live_says _) eq_refl eq_refl _) _ _).
    + vm_compute. reflexivity.
    + reflexivity.
  - refine (proj2 (proj2 (dashboard_key_lookup (Examples.w_says Examples.text_no_key)
              [] "sales by month" Examples.df_half "sk-test"
              {| choices := [Some Examples.text_no_key] |}
              (Some Examples.text_no_key) [] (JDict [("title", JStr "T")])
              (live_says _) eq_refl eq_refl _)) _ eq_refl _).
    + vm_compute. reflexivity.
    + reflexivity.
Defined.

(** C7 (as amended). For a model output [text]: when [json.loads] accepts
    it, its value is used; when it does not, the match of the pattern,
    which runs from the first opening brace of the text to its last
    closing brace, is parsed instead, so that an object between two pieces
    of prose is still read when the prose before it has no opening brace
    and the prose after it no closing brace; when that parse fails, or
    when there is no match, the handler raises an [HTTPException] with
    status 502. *)
Theorem model_output_parsing {V : Type} `{EqDecision V} (w : World V)
    (data : list Byte.byte) (intent : string) (df : DataFrame V)
    (key : string) (resp : ChatCompletion) (text : string)
    (rest : list (option string)) :
  live w data df key ->
  chat_completions_create w key (request_for w df intent) = Return resp ->
  choices resp = Some text :: rest ->
  let r := outcome (generate_dashboard w data intent) in
  (forall j : json, json_loads w text = Return j -> r = respond j)
  /\ (forall (e : exn) (span : string) (j : json),
        json_loads w text = Raise e -> re_search_braces text = Some span ->
        json_loads w span = Return j -> r = respond j)
  /\ (forall (e e' : exn) (span : string),
        json_loads w text = Raise e -> re_search_braces text = Some span ->
        json_loads w span = Raise e' ->
        r = Raise (HTTPException 502
              "Model returned text but JSON extraction failed. Raw model output included."))
  /\ (forall e : exn,
        json_loads w text = Raise e -> re_search_braces text = None ->
        r = Raise (HTTPException 502 "Failed to parse JSON from model output."))
  /\ (forall pre body suf : string,
        text = pre +:+ String "{" (body +:+ String "}" suf) ->
        lacks "{" pre = true -> lacks "}" suf = true ->
        re_search_braces text = Some (String "{" (body +:+ String "}" EmptyString)))
  /\ (forall span : string,
        re_search_braces text = Some span ->
        exists pre body suf : string,
          text = pre +:+ span +:+ suf
          /\ lacks "{" pre = true /\ lacks "}" suf = true
          /\ span = String "{" (body +:+ String "}" EmptyString)).
Proof.
  intros Hlive Hresp Hchoices r. subst r.
  rewrite (generate_dashboard_answer w data intent df key resp (Some text) rest
             Hlive Hresp Hchoices).
  split; [|split; [|split; [|split; [|split]]]].
  - intros j Hj. now rewrite (parse_content_direct w text j Hj).
  - intros e span j He Hspan Hj.
    rewrite (parse_content_fallback w text e He). simpl. now rewrite Hspan, Hj.
  - intros e e' span He Hspan He'.
    rewrite (parse_content_fallback w text e He). simpl. now rewrite Hspan, He'.
  - intros e He Hnone.
    rewrite (parse_content_fallback w text e He). simpl. now rewrite Hnone.
  - intros pre body suf -> Hpre Hsuf. now apply re_search_braces_app.
  - apply re_search_braces_Some.
Qed.

Lemma model_output_parsing_witness :
  outcome (generate_dashboard (Examples.w_says Examples.text_prose) []
             "sales by month")
  = Return (JDict [("dashboard", JDict [("title", JStr "T")])])
  /\ outcome (generate_dashboard (Examples.w_says Examples.text_braces) []
                "sales by month")
     = Raise (HTTPException 502
         "Model returned text but JSON extraction failed. Raw model output included.")
  /\ outcome (generate_dashboard (Examples.w_says Examples.text_plain) []
                "sales by month")
     = Raise (HTTPException 502 "Failed to parse JSON from model output.").
Proof.
  split; [|split].
  - refine (proj1 (proj2 (model_output_parsing (Examples.w_says Examples.text_prose)
              [] "sales by month" Examples.df_half "sk-test"
              {| choices := [Some Examples.text_prose] |} Examples.text_prose []
              (live_says _) eq_refl eq_refl))
              (Exception "JSONDecodeError" "Expecting value") Examples.text_T
              (JDict [("dashboard", JDict [("title", JStr "T")])]) _ _ _);
      vm_compute; reflexivity.
  - refine (proj1 (proj2 (proj2 (model_output_parsing
              (Examples.w_says Examples.text_braces)
              [] "sales by month" Examples.df_half "sk-test"
              {| choices := [Some Examples.text_braces] |} Examples.text_braces []
              (live_says _) eq_refl eq_refl)))
              (Exception "JSONDecodeError" "Expecting value")
              (Exception "JSONDecodeError" "Expecting value") "{oops}" _ _ _);
      vm_compute; reflexivity.
  - refine (proj1 (proj2 (proj2 (proj2 (model_output_parsing
              (Examples.w_says Examples.text_plain)
              [] "sales by month" Examples.df_half "sk-test"
              {| choices := [Some Examples.text_plain] |} Examples.text_plain []
              (live_says _) eq_refl eq_refl))))
              (Exception "JSONDecodeError" "Expecting value") _ _);
      vm_compute; reflexivity.
Defined.

(** C7, the counterexample: the object of [text_T], which [json.loads]
    accepts, with prose around it that has a brace of its own (before the
    object, or after it), and two objects in one text.  The span the
    pattern matches is then more than the first object, its parse fails,
    and the handler answers 502. *)
Lemma prose_with_braces_is_rejected :
  json_loads (Examples.w_says Examples.text_T) Examples.text_T
  = Return (JDict [("dashboard", JDict [("title", JStr "T")])])
  /\ re_search_braces Examples.text_prose_braces
     = Some ("{braces}: " +:+ Examples.text_T)
  /\ outcome (generate_dashboard (Examples.w_says Examples.text_prose_braces) []
                "sales by month")
     = Raise (HTTPException 502
         "Model returned text but JSON extraction failed. Raw model output included.")
  /\ re_search_braces Examples.text_prose_after
     = Some (Examples.text_T +:+ nl +:+ "Thanks :-}")
  /\ outcome (generate_dashboard (Examples.w_says Examples.text_prose_after) []
                "sales by month")
     = Raise (HTTPException 502
         "Model returned text but JSON extraction failed. Raw model output included.")
  /\ re_search_braces Examples.text_two_objects = Some Examples.text_two_objects
  /\ outcome (generate_dashboard (Examples.w_says Examples.text_two_objects) []
                "sales by month")
     = Raise (HTTPException 502
         "Model returned text but JSON extraction failed. Raw model output included.").
Proof. repeat split; vm_compute; reflexivity. Qed.

(** ** Schema inference *)

Lemma Qltb_spec (a b : Q) : Qltb a b = true <-> (a < b)%Q.
Proof.
  unfold Qltb. rewrite negb_true_iff. split.
  - intros Hb. apply Qnot_le_lt. intros Hle.
    apply Qle_bool_iff in Hle. congruence.
  - intros Hlt. destruct (Qle_bool b a) eqn:Hb; [|reflexivity].
    apply Qle_bool_iff in Hb. now apply Qlt_not_le in Hlt.
Qed.

Lemma ratio_Qdiv (n m : Z) :
  0 < m -> (n # Z.to_pos m == inject_Z n / inject_Z m)%Q.
Proof.
  intros Hm. destruct m as [|p|p]; try lia.
  simpl. apply Qmake_Qdiv.
Qed.

Section SchemaFacts.

Context {V : Type} `{EqDecision V}.

Lemma slice_to_all {A : Type} (l : list A) :
  slice_to (Z.of_nat (length l)) l = l.
Proof.
  unfold slice_to. destruct (Z.leb_spec 0 (Z.of_nat (length l))); [|lia].
  rewrite Nat2Z.id. now apply take_ge.
Qed.

Lemma slice_to_nil {A : Type} (n : Z) : slice_to n (@nil A) = [].
Proof. unfold slice_to. destruct (0 <=? n); apply take_nil. Qed.

(** The sample of a column is made of its first [window_rows] cells. *)
Lemma window_take (df : DataFrame V) (sample_n : Z) (c : string * Series V) :
  length (values c.2) = index_len df ->
  values (window df sample_n c) = take (window_rows df sample_n) (values c.2)
  /\ length (values (window df sample_n c)) = window_rows df sample_n.
Proof.
  intros Hc. unfold window, window_rows, slice_to, len. cbn [values].
  destruct (Z.leb_spec 0 sample_n) as [Hn|Hn].
  - destruct (Z.leb_spec 0 (Z.min (Z.of_nat (index_len df)) sample_n)); [|lia].
    split; [reflexivity|]. rewrite length_take. lia.
  - destruct (Z.leb_spec 0 (Z.min (Z.of_nat (index_len df)) sample_n)); [lia|].
    replace (Z.min (Z.of_nat (index_len df)) sample_n) with sample_n by lia.
    rewrite Hc. split; [reflexivity|]. rewrite length_take. lia.
Qed.

Lemma count_missing (l : list (option V)) :
  length (filter (fun b : bool => b = true)
            (map (fun v : option V =>
                    match v with None => true | Some _ => false end) l))
  = length (List.filter (fun v : option V =>
                           match v with None => true | Some _ => false end) l).
Proof.
  induction l as [|[x|] l IH]; [reflexivity | |].
  - cbn [map List.filter]. rewrite filter_cons.
    destruct (decide (false = true)); [discriminate | exact IH].
  - cbn [map List.filter]. rewrite filter_cons.
    destruct (decide (true = true)); [|congruence]. simpl. now rewrite IH.
Qed.

Lemma round_zero : round (Fl 0) 3 = Fl 0.
Proof. reflexivity. Qed.

(** The missing fraction of one profile. *)
Lemma missing_pct_window (df : DataFrame V) (sample_n : Z)
    (c : string * Series V) :
  length (values c.2) = index_len df ->
  p_missing_pct (infer_column (len df) c.1 (window df sample_n c))
  = window_missing_fraction df sample_n c.
Proof.
  intros Hc. destruct (window_take df sample_n c Hc) as [Hw Hl].
  unfold infer_column, window_missing_fraction. cbn [p_missing_pct].
  destruct (0 <? len df); [|apply round_zero].
  unfold isna, missing_among. rewrite <- Hw.
  destruct (values (window df sample_n c)) as [|v l] eqn:Hv.
  - simpl in Hl. rewrite <- Hl. reflexivity.
  - rewrite <- Hl. unfold rounded_ratio, mean.
    cbn [map length]. rewrite length_map. do 5 f_equal.
    apply (count_missing (v :: l)).
Qed.

End SchemaFacts.

Lemma distinct_one_column {V : Type} (n : nat) (col : string) (ser : Series V) :
  distinct_labels {| index_len := n; columns := [(col, ser)] |}.
Proof. apply NoDup_singleton. Defined.

(** C1 (as amended). The missing fraction of a column is taken over the
    sample window (the rows [df.head] keeps: the first
    [min(len(df), sample_n)] rows for a sample size that is not negative):
    it is the float quotient of the number of missing cells among those
    rows by the number of those rows, rounded to three places, and 0 for a
    table without rows.  It is the fraction over the full table when
    [sample_n] is at least the number of rows. *)
Theorem missing_pct_over_sample_window {V : Type} `{EqDecision V}
    (to_csv : DataFrame V -> string) (df : DataFrame V) (sample_n : Z)
    (schema : list (Profile V)) (csv : string) :
  frame_ok df ->
  infer_schema to_csv df sample_n = Return (schema, csv) ->
  map p_missing_pct schema
  = map (window_missing_fraction df sample_n) (columns df)
  /\ (len df <= sample_n ->
      map p_missing_pct schema
      = map (full_table_missing_fraction df) (columns df)).
Proof.
  intros Hok Hret.
  destruct (infer_schema_Return to_csv df sample_n schema csv Hret) as (-> & _).
  assert (Hwin : map p_missing_pct (profiles df sample_n)
                 = map (window_missing_fraction df sample_n) (columns df)).
  { unfold profiles. rewrite map_map. apply map_ext_Forall.
    eapply Forall_impl; [exact Hok|]. intros c Hc. cbn beta in Hc |- *.
    now apply missing_pct_window. }
  split; [exact Hwin|]. intros Hn. rewrite Hwin.
  apply map_ext_Forall, Forall_forall. intros c _.
  unfold window_missing_fraction, full_table_missing_fraction, window_rows.
  destruct (Z.leb_spec 0 sample_n); [|unfold len in *; lia].
  replace (Z.to_nat (Z.min (len df) sample_n)) with (index_len df)
    by (unfold len in *; lia).
  reflexivity.
Qed.

Lemma missing_pct_over_sample_window_witness :
  map p_missing_pct (profiles Examples.df_half 200)
  = map (full_table_missing_fraction Examples.df_half) (columns Examples.df_half).
Proof.
  refine (proj2 (missing_pct_over_sample_window Examples.csv Examples.df_half 200
                   _ _ _ (infer_schema_distinct Examples.csv Examples.df_half 200
                            (distinct_one_column _ _ _))) _).
  - repeat constructor.
  - vm_compute. discriminate.
Defined.

(** C1, the counterexample: a column of two rows, the second one missing.
    With a sample of one row the missing fraction is 0, with a sample of
    two rows it is 1/2, and the fraction over the full table is 1/2. *)
Lemma missing_pct_follows_sample :
  frame_ok Examples.df_half
  /\ (exists (schema : list (Profile Z)) (csv : string),
        infer_schema Examples.csv Examples.df_half 1 = Return (schema, csv)
        /\ map p_missing_pct schema = [Fl 0]
        /\ map p_missing_pct schema
           <> map (full_table_missing_fraction Examples.df_half)
                  (columns Examples.df_half))
  /\ (exists (schema : list (Profile Z)) (csv : string),
        infer_schema Examples.csv Examples.df_half 2 = Return (schema, csv)
        /\ map p_missing_pct schema = [Fl (1 # 2)])
  /\ map (full_table_missing_fraction Examples.df_half) (columns Examples.df_half)
     = [Fl (1 # 2)].
Proof.
  split; [repeat constructor|]. split; [|split].
  - eexists. eexists. split; [vm_compute; reflexivity|].
    split; [vm_compute; reflexivity | vm_compute; discriminate].
  - eexists. eexists. split; vm_compute; reflexivity.
  - vm_compute. reflexivity.
Qed.

(** The rounding is that of the float: for 80 rows with one missing cell
    the quotient is the float nearest to 1/80, which lies above 0.0125, so
    the missing fraction is the float nearest to 0.013. *)
Example missing_pct_80_rows :
  exists (schema : list (Profile Z)) (csv : string),
    infer_schema Examples.csv Examples.df_80 200 = Return (schema, csv)
    /\ map p_missing_pct schema = [Fl (RN (13 # 1000))]
    /\ RN (13 # 1000) = (7493989779944505 # 576460752303423488)%Q.
Proof.
  eexists. eexists. split; [vm_compute; reflexivity|].
  split; vm_compute; reflexivity.
Qed.

(** C5 (as amended). For a table with no row whose column labels are
    pairwise distinct, [infer_schema] returns, and what it returns has one
    profile per column, in the order of the columns, each with
    [nunique = 0] and [missing_pct = 0]. *)
Theorem empty_table_profiles {V : Type} `{EqDecision V}
    (to_csv : DataFrame V -> string) (df : DataFrame V) (sample_n : Z) :
  len df = 0 -> frame_ok df -> distinct_labels df ->
  exists (schema : list (Profile V)) (csv : string),
    infer_schema to_csv df sample_n = Return (schema, csv)
    /\ map p_name schema = map fst (columns df)
    /\ length schema = length (columns df)
    /\ Forall (fun p => p_nunique p = 0 /\ p_missing_pct p = Fl 0) schema.
Proof.
  intros Hlen Hok Hnd. eexists. eexists.
  split; [apply (infer_schema_distinct to_csv df sample_n Hnd)|].
  unfold profiles.
  split; [now rewrite map_map|]. split; [now rewrite length_map|].
  apply Forall_map. eapply Forall_impl; [exact Hok|].
  intros c Hc. cbn beta in Hc |- *.
  assert (Hnil : values c.2 = []).
  { apply length_zero_iff_nil. rewrite Hc. unfold len in Hlen. lia. }
  unfold infer_column, window, nunique, dropna.
  cbn [p_nunique p_missing_pct values]. rewrite Hnil, slice_to_nil, Hlen.
  split; reflexivity.
Qed.

Lemma empty_table_profiles_witness :
  exists (schema : list (Profile Z)) (csv : string),
    infer_schema Examples.csv Examples.df_empty 200 = Return (schema, csv)
    /\ map p_name schema = ["a"; "b"]
    /\ length schema = 2%nat
    /\ Forall (fun p => p_nunique p = 0 /\ p_missing_pct p = Fl 0) schema.
Proof.
  apply (empty_table_profiles Examples.csv Examples.df_empty 200).
  - reflexivity.
  - repeat constructor.
  - apply NoDup_cons_2; [|apply NoDup_singleton].
    intros Hin. apply list_elem_of_singleton in Hin. discriminate.
Defined.

(** C5, the counterexample: a table with no row and two columns with the
    same label.  [df_sample[col]] is then a frame, line 61 raises, and no
    profile is returned. *)
Lemma empty_table_repeated_label :
  len Examples.df_dup = 0
  /\ frame_ok Examples.df_dup
  /\ infer_schema Examples.csv Examples.df_dup 200
     = Raise (Exception "AttributeError"
                "'DataFrame' object has no attribute 'dtype'").
Proof.
  split; [reflexivity|]. split; [repeat constructor | vm_compute; reflexivity].
Qed.

(** C6. In every profile [infer_schema] returns, [likely_categorical] is
    true exactly when [nunique / max(total, 1) < 0.05] or [nunique <= 50],
    with [total] the number of rows of the table; so it is true whenever
    [nunique <= 50], whatever the size of the table. *)
Theorem likely_categorical_rule {V : Type} `{EqDecision V}
    (to_csv : DataFrame V -> string) (df : DataFrame V) (sample_n : Z)
    (schema : list (Profile V)) (csv : string) :
  infer_schema to_csv df sample_n = Return (schema, csv) ->
  Forall (fun p =>
            (p_likely_categorical p = true <->
             (inject_Z (p_nunique p) / inject_Z (Z.max (len df) 1) < 5 # 100)%Q
             \/ p_nunique p <= 50)
            /\ (p_nunique p <= 50 -> p_likely_categorical p = true))
         schema.
Proof.
  intros Hret.
  destruct (infer_schema_Return to_csv df sample_n schema csv Hret) as (-> & _).
  unfold profiles. apply Forall_map, Forall_forall.
  intros c _. cbn beta.
  unfold infer_column. cbn [p_likely_categorical p_nunique].
  set (n := nunique (window df sample_n c)).
  rewrite orb_true_iff, Qltb_spec, Z.leb_le.
  rewrite (ratio_Qdiv n (Z.max (len df) 1)) by lia.
  split; [reflexivity | intros Hn; now right].
Qed.

(** C6, the example of the specification: a table of 10,000 rows with a
    column of exactly 50 distinct values is categorical, with the sample
    of 200 rows the handler takes. *)
Example likely_categorical_10000_rows :
  len Examples.df_cycle = 10000
  /\ map (fun p => (p_nunique p, p_likely_categorical p))
         (profiles Examples.df_cycle 200) = [(50, true)].
Proof. split; vm_compute; reflexivity. Qed.

(** Both tests can fail: 2,000 rows of distinct values give a sample of
    200 distinct values, more than 50 and a tenth of the table. *)
Example likely_categorical_false :
  map (fun p => (p_nunique p, p_likely_categorical p))
      (profiles Examples.df_ids 200) = [(200, false)].
Proof. vm_compute. reflexivity. Qed.

Lemma likely_categorical_rule_witness :
  map p_likely_categorical (profiles Examples.df_cycle 200) = [true].
Proof.
  pose proof (likely_categorical_rule Examples.csv Examples.df_cycle 200 _ _
                (infer_schema_distinct Examples.csv Examples.df_cycle 200
                   (distinct_one_column _ _ _))) as Hrule.
  destruct (profiles Examples.df_cycle 200) as [|p [|p' l]] eqn:E;
    try (vm_compute in E; discriminate).
  apply Forall_inv in Hrule. destruct Hrule as [_ H50].
  simpl. f_equal. apply H50.
  vm_compute in E. injection E as <-. vm_compute. discriminate.
Defined.

(** ** Sanity checks of the Python layer *)

Example lower_ex : Py.lower "YeS" = "yes".
Proof. reflexivity. Qed.

Example strip_ex : Py.strip ("  sk-1 " +:+ nl) = "sk-1".
Proof. reflexivity. Qed.

Example contains_ex :
  Py.contains "quota" "You exceeded your current quota" = true
  /\ Py.contains "quota" "Quota exceeded" = false.
Proof. split; reflexivity. Qed.

Example key_path_ex : key_path Examples.w_no_key = Examples.the_key_path.
Proof. reflexivity. Qed.

Example dirname_ex :
  Py.dirname "main.py" = EmptyString /\ Py.dirname "/main.py" = "/"
  /\ Py.dirname "backend/main.py" = "backend".
Proof. repeat split. Qed.

Example round_ex :
  RN (1 # 80) = (3602879701896397 # 288230376151711744)%Q
  /\ round (Fl (RN (1 # 80))) 3
     = Fl (7493989779944505 # 576460752303423488)
  /\ round (Fl (RN (1 # 16))) 3 = Fl (1116892707587883 # 18014398509481984)
  /\ round (Fl (RN (1 # 3))) 3 = Fl (5998794703657501 # 18014398509481984)
  /\ round (Fl (RN (1 # 2))) 3 = Fl (1 # 2).
Proof. repeat split; vm_compute; reflexivity. Qed.

Example slice_to_ex :
  slice_to 2 [1; 2; 3] = [1; 2] /\ slice_to 5 [1; 2; 3] = [1; 2; 3]
  /\ slice_to (-1) [1; 2; 3] = [1; 2] /\ slice_to (-5) [1; 2; 3] = [].
Proof. repeat split. Qed.

Example unique_ex : unique [3; 1; 3; 2; 1] = [3; 1; 2].
Proof. reflexivity. Qed.

Example re_search_ex :
  re_search_braces "a {b} c {d} e" = Some "{b} c {d}"
  /\ re_search_braces "} then {" = None.
Proof. split; reflexivity. Qed.

(** An upload pandas cannot read ends the request before the branch on
    mock mode: the exception of the second read is not handled. *)
Example unreadable_upload :
  generate_dashboard
    (Examples.world (<["MOCK_DASHBOARD" := "1"]> ∅) ∅
       (Raise (Exception "EmptyDataError" "No columns to parse from file"))
       (Examples.says Examples.text_T))
    [] "sales"
  = ([Call "generate_dashboard"],
     Raise (Exception "EmptyDataError" "No columns to parse from file")).
Proof. vm_compute. reflexivity. Qed.

(** An upload that reads as a frame with a repeated label ends the request
    at schema inference, with an [AttributeError] nothing handles. *)
Example repeated_label_stops_request :
  generate_dashboard
    (Examples.world Examples.env_key ∅ (Return Examples.df_dup)
       (Examples.says Examples.text_T))
    [] "sales"
  = ([Call "generate_dashboard"],
     Raise (Exception "AttributeError"
              "'DataFrame' object has no attribute 'dtype'")).
Proof. vm_compute. reflexivity. Qed.

(** A completion without text ([content] is [None]) is a [TypeError] of
    the fallback itself, which nothing handles. *)
Example content_none :
  outcome (generate_dashboard
             (Examples.world Examples.env_key ∅ (Return Examples.df_half)
                (Return {| choices := [None] |}))
             [] "sales")
  = Raise (Exception "TypeError" "expected string or bytes-like object, got 'NoneType'").
Proof. vm_compute. reflexivity. Qed.

(** * Further properties *)

(** ** Lists of distinct values *)

Section UniqueFacts.

Context {V : Type} `{EqDecision V}.

Lemma elem_of_unique_from (seen l : list V) (x : V) :
  x ∈ unique_from seen l <-> x ∈ l /\ x ∉ seen.
Proof.
  revert seen. induction l as [|y l IH]; intros seen; simpl.
  - split; [intros Hx; inversion Hx | intros [Hx _]; inversion Hx].
  - destruct (decide (y ∈ seen)) as [Hy|Hy].
    + rewrite IH, elem_of_cons. split; [tauto|].
      intros [[->|Hx] Hs]; [contradiction | tauto].
    + rewrite !elem_of_cons, IH, elem_of_cons. split.
      * intros [->|[Hx Hs]]; [tauto|]. split; [tauto|]. tauto.
      * intros [[->|Hx] Hs]; [tauto|].
        destruct (decide (x = y)) as [->|Hne]; [tauto|]. right. tauto.
Qed.

Lemma NoDup_unique_from (seen l : list V) : NoDup (unique_from seen l).
Proof.
  revert seen. induction l as [|y l IH]; intros seen; simpl.
  - constructor.
  - destruct (decide (y ∈ seen)); [apply IH|].
    constructor; [|apply IH].
    rewrite elem_of_unique_from, elem_of_cons. tauto.
Qed.

Lemma length_unique_from (seen l : list V) :
  (length (unique_from seen l) <= length l)%nat.
Proof.
  revert seen. induction l as [|y l IH]; intros seen; simpl; [lia|].
  destruct (decide (y ∈ seen)); simpl.
  - specialize (IH seen). lia.
  - specialize (IH (y :: seen)). lia.
Qed.

(** The distinct values of a list with more items after it: those of the
    list, then the new ones among the items that follow. *)
Lemma unique_from_app (seen l1 l2 : list V) :
  unique_from seen (l1 ++ l2)%list
  = (unique_from seen l1
     ++ unique_from (rev (unique_from seen l1) ++ seen) l2)%list.
Proof.
  revert seen. induction l1 as [|y l1 IH]; intros seen; simpl; [reflexivity|].
  destruct (decide (y ∈ seen)); simpl.
  - apply IH.
  - rewrite IH. f_equal. f_equal. f_equal.
    now rewrite <- app_assoc.
Qed.

Lemma unique_prefix (l1 l2 : list V) : unique l1 `prefix_of` unique (l1 ++ l2)%list.
Proof. unfold unique. rewrite unique_from_app. now apply prefix_app_r. Qed.

Lemma omap_id_app (l1 l2 : list (option V)) :
  omap id (l1 ++ l2)%list = (omap id l1 ++ omap id l2)%list.
Proof. apply omap_app. Qed.

Lemma length_omap_id (l : list (option V)) :
  (length (omap id l) <= length l)%nat.
Proof.
  induction l as [|[x|] l IH]; [reflexivity | |];
    change (omap id (?a :: l)) with (from_option (fun y => y :: omap id l) (omap id l) a);
    simpl; lia.
Qed.

Lemma elem_of_omap_id (l : list (option V)) (x : V) :
  x ∈ omap id l <-> Some x ∈ l.
Proof.
  rewrite list_elem_of_omap. split.
  - intros (o & Ho & Hx). unfold id in Hx. now subst o.
  - intros Hx. exists (Some x). split; [exact Hx | reflexivity].
Qed.

Lemma take_prefix_mono {A : Type} (k : nat) (l1 l2 : list A) :
  l1 `prefix_of` l2 -> take k l1 `prefix_of` take k l2.
Proof.
  intros [l3 ->]. rewrite take_app. now apply prefix_app_r.
Qed.

Lemma slice_to_nonneg {A : Type} (n : Z) (l : list A) :
  0 <= n -> slice_to n l = take (Z.to_nat n) l.
Proof. intros Hn. unfold slice_to. now destruct (Z.leb_spec 0 n); [|lia]. Qed.

Lemma slice_to_mono {A : Type} (n1 n2 : Z) (l : list A) :
  0 <= n1 <= n2 -> exists l3 : list A, slice_to n2 l = (slice_to n1 l ++ l3)%list.
Proof.
  intros Hn. rewrite !slice_to_nonneg by lia.
  exists (drop (Z.to_nat n1) (take (Z.to_nat n2) l)).
  rewrite <- (take_drop (Z.to_nat n1) (take (Z.to_nat n2) l)) at 1.
  f_equal. rewrite take_take. f_equal. lia.
Qed.

Lemma length_slice_to {A : Type} (n : Z) (l : list A) :
  0 <= n -> Z.of_nat (length (slice_to n l)) = Z.min (Z.of_nat (length l)) n.
Proof.
  intros Hn. rewrite slice_to_nonneg by exact Hn. rewrite length_take. lia.
Qed.

Lemma Forall2_map_r {A B : Type} (R : A -> B -> Prop) (f : A -> B) (l : list A) :
  Forall (fun a => R a (f a)) l -> Forall2 R l (map f l).
Proof. induction 1; simpl; constructor; assumption. Qed.

Lemma Forall2_map_map {A B C : Type} (R : B -> C -> Prop) (f : A -> B)
    (g : A -> C) (l : list A) :
  Forall (fun a => R (f a) (g a)) l -> Forall2 R (map f l) (map g l).
Proof. induction 1; simpl; constructor; assumption. Qed.

End UniqueFacts.

(** ** More on schema inference *)

Section SchemaMore.

Context {V : Type} `{EqDecision V}.
Variable to_csv : DataFrame V -> string.

Lemma infer_schema_columns (df : DataFrame V) (sample_n : Z)
    (schema : list (Profile V)) (csv : string) :
  infer_schema to_csv df sample_n = Return (schema, csv) ->
  schema = map (fun c => infer_column (len df) c.1 (window df sample_n c))
               (columns df).
Proof.
  intros Hret.
  now destruct (infer_schema_Return to_csv df sample_n schema csv Hret).
Qed.

Lemma slice_to_sublist {A : Type} (n : Z) (l : list A) :
  slice_to n l `sublist_of` l.
Proof. unfold slice_to. destruct (0 <=? n); apply sublist_take. Qed.

Lemma window_length (df : DataFrame V) (sample_n : Z) (c : string * Series V) :
  length (values c.2) = index_len df -> 0 <= sample_n ->
  Z.of_nat (length (values (window df sample_n c))) = Z.min (len df) sample_n.
Proof.
  intros Hc Hn. unfold window, len. cbn [values].
  rewrite length_slice_to by lia. rewrite Hc. lia.
Qed.

Lemma nunique_le_length (ser : Series V) :
  0 <= nunique ser <= Z.of_nat (length (values ser)).
Proof.
  unfold nunique, unique, dropna. split; [lia|].
  pose proof (length_unique_from [] (omap id (values ser))).
  pose proof (length_omap_id (values ser)). lia.
Qed.

End SchemaMore.

(** X1. The sample values of a profile [infer_schema] returns are at most
    five, pairwise distinct, as many as [min(5, nunique)], and each of
    them is a non-missing value of the column. *)
Theorem samples_are_distinct_values {V : Type} `{EqDecision V}
    (to_csv : DataFrame V -> string) (df : DataFrame V) (sample_n : Z)
    (schema : list (Profile V)) (csv : string) :
  infer_schema to_csv df sample_n = Return (schema, csv) ->
  Forall2 (fun c p =>
             (length (p_samples p) <= 5)%nat
             /\ NoDup (p_samples p)
             /\ Z.of_nat (length (p_samples p)) = Z.min 5 (p_nunique p)
             /\ (forall x : V, x ∈ p_samples p -> Some x ∈ values c.2))
          (columns df) schema.
Proof.
  intros Hret. rewrite (infer_schema_columns to_csv df sample_n schema csv Hret).
  apply Forall2_map_r, Forall_forall.
  intros c _. unfold infer_column. cbn [p_samples p_nunique].
  repeat split.
  - rewrite length_take. lia.
  - eapply sublist_NoDup; [apply NoDup_unique_from | apply sublist_take].
  - rewrite length_take. unfold nunique. lia.
  - intros x Hx. eapply elem_of_sublist in Hx; [|apply sublist_take].
    apply elem_of_unique_from in Hx as [Hx _].
    apply elem_of_omap_id in Hx.
    eapply elem_of_sublist; [exact Hx|]. apply slice_to_sublist.
Qed.

Lemma samples_are_distinct_values_witness :
  Forall2 (fun c p =>
             (length (p_samples p) <= 5)%nat
             /\ NoDup (p_samples p)
             /\ Z.of_nat (length (p_samples p)) = Z.min 5 (p_nunique p)
             /\ (forall x : Z, x ∈ p_samples p -> Some x ∈ values c.2))
          (columns Examples.df_cycle) (profiles Examples.df_cycle 200).
Proof.
  apply (samples_are_distinct_values Examples.csv Examples.df_cycle 200 _ _
           (infer_schema_distinct Examples.csv Examples.df_cycle 200
              (distinct_one_column _ _ _))).
Defined.

(** X2. With a sample size that is not negative, [nunique] lies, in every
    profile [infer_schema] returns, between 0 and the number of rows of
    the sample, [min(len(df), sample_n)]. *)
Theorem nunique_bounded_by_sample {V : Type} `{EqDecision V}
    (to_csv : DataFrame V -> string) (df : DataFrame V) (sample_n : Z)
    (schema : list (Profile V)) (csv : string) :
  frame_ok df -> 0 <= sample_n ->
  infer_schema to_csv df sample_n = Return (schema, csv) ->
  Forall (fun p => 0 <= p_nunique p <= Z.min (len df) sample_n) schema.
Proof.
  intros Hok Hn Hret.
  rewrite (infer_schema_columns to_csv df sample_n schema csv Hret).
  apply Forall_map.
  eapply Forall_impl; [exact Hok|]. intros c Hc. cbn beta in Hc |- *.
  unfold infer_column. cbn [p_nunique].
  rewrite <- (window_length df sample_n c Hc Hn).
  apply nunique_le_length.
Qed.

Lemma nunique_bounded_by_sample_witness :
  Forall (fun p => 0 <= p_nunique p <= 2) (profiles Examples.df_half 200).
Proof.
  apply (nunique_bounded_by_sample Examples.csv Examples.df_half 200 _
           (Examples.csv (head Examples.df_half (Z.min (len Examples.df_half) 200)))).
  - repeat constructor.
  - discriminate.
  - apply infer_schema_distinct, distinct_one_column.
Defined.

(** X3. When the table has more than twenty times as many rows as the
    sample, every column is flagged categorical: the count of distinct
    values, taken on the sample, is then below a twentieth of the rows.
    With the sample of 200 rows of the handler this is every table of more
    than 4,000 rows. *)
Theorem large_table_all_categorical {V : Type} `{EqDecision V}
    (to_csv : DataFrame V -> string) (df : DataFrame V) (sample_n : Z)
    (schema : list (Profile V)) (csv : string) :
  frame_ok df -> 0 <= sample_n -> 20 * sample_n < len df ->
  infer_schema to_csv df sample_n = Return (schema, csv) ->
  Forall (fun p => p_likely_categorical p = true) schema.
Proof.
  intros Hok Hn Hbig Hret.
  rewrite (infer_schema_columns to_csv df sample_n schema csv Hret).
  apply Forall_map.
  eapply Forall_impl; [exact Hok|]. intros c Hc. cbn beta in Hc |- *.
  unfold infer_column. cbn [p_likely_categorical].
  pose proof (nunique_le_length (window df sample_n c)) as Hnu.
  rewrite (window_length df sample_n c Hc Hn) in Hnu.
  apply orb_true_iff. left. apply Qltb_spec.
  unfold Qlt. cbn [Qnum Qden].
  rewrite Z2Pos.id by lia. lia.
Qed.

Lemma large_table_all_categorical_witness :
  Forall (fun p => p_likely_categorical p = true) (profiles Examples.df_ids 20).
Proof.
  apply (large_table_all_categorical Examples.csv Examples.df_ids 20 _
           (Examples.csv (head Examples.df_ids (Z.min (len Examples.df_ids) 20)))).
  - repeat constructor.
  - discriminate.
  - reflexivity.
  - apply infer_schema_distinct, distinct_one_column.
Defined.

(** X4. A larger sample only adds: with [0 <= n1 <= n2] the profiles
    [infer_schema] returns for the two samples are for the same columns,
    [nunique] does not decrease, and the sample values of the smaller
    sample are a prefix of those of the larger one. *)
Theorem larger_sample_extends {V : Type} `{EqDecision V}
    (to_csv : DataFrame V -> string) (df : DataFrame V) (n1 n2 : Z)
    (schema1 schema2 : list (Profile V)) (csv1 csv2 : string) :
  0 <= n1 <= n2 ->
  infer_schema to_csv df n1 = Return (schema1, csv1) ->
  infer_schema to_csv df n2 = Return (schema2, csv2) ->
  Forall2 (fun p1 p2 =>
             p_name p1 = p_name p2
             /\ p_nunique p1 <= p_nunique p2
             /\ p_samples p1 `prefix_of` p_samples p2)
          schema1 schema2.
Proof.
  intros Hn Hret1 Hret2.
  rewrite (infer_schema_columns to_csv df n1 schema1 csv1 Hret1).
  rewrite (infer_schema_columns to_csv df n2 schema2 csv2 Hret2).
  apply Forall2_map_map, Forall_forall. intros c _.
  unfold infer_column. cbn [p_name p_nunique p_samples].
  split; [reflexivity|].
  assert (Hpre : unique (dropna (window df n1 c))
                 `prefix_of` unique (dropna (window df n2 c))).
  { unfold dropna, window. cbn [values].
    destruct (slice_to_mono (Z.min (len df) n1) (Z.min (len df) n2) (values c.2))
      as [l3 ->]; [unfold len; lia|].
    rewrite omap_id_app. apply unique_prefix. }
  split.
  - unfold nunique. apply prefix_length in Hpre. lia.
  - now apply take_prefix_mono.
Qed.

Lemma larger_sample_extends_witness :
  Forall2 (fun p1 p2 =>
             p_name p1 = p_name p2
             /\ p_nunique p1 <= p_nunique p2
             /\ p_samples p1 `prefix_of` p_samples p2)
          (profiles Examples.df_half 1) (profiles Examples.df_half 2).
Proof.
  apply (larger_sample_extends Examples.csv Examples.df_half 1 2 _ _
           (Examples.csv (head Examples.df_half (Z.min (len Examples.df_half) 1)))
           (Examples.csv (head Examples.df_half (Z.min (len Examples.df_half) 2)))).
  - lia.
  - apply infer_schema_distinct, distinct_one_column.
  - apply infer_schema_distinct, distinct_one_column.
Defined.

(** ** The range of the missing fraction *)

Lemma Zpos_of_nat (n : nat) : (0 < n)%nat -> Z.pos (Pos.of_nat n) = Z.of_nat n.
Proof.
  intros Hn. destruct n as [|n]; [lia|].
  rewrite <- Pos.of_nat_succ, Zpos_P_of_succ_nat. lia.
Qed.

Lemma round_half_even_range (q : Q) (k : Z) :
  0 < k -> (0 <= q <= 1)%Q ->
  0 <= round_half_even (q * inject_Z k) <= k.
Proof.
  intros Hk [H0 H1]. unfold Qle in H0, H1. cbn [Qnum Qden] in H0, H1.
  unfold round_half_even. cbn [Qnum Qden Qmult inject_Z].
  rewrite Pos.mul_1_r.
  set (N := Qnum q * k). set (D := Z.pos (Qden q)).
  assert (HD : 0 < D) by (unfold D; lia).
  assert (HN : 0 <= N <= k * D) by (unfold N, D; nia).
  pose proof (Z.div_mod N D ltac:(lia)) as Hdm.
  pose proof (Z.mod_pos_bound N D HD) as Hr.
  assert (Hf0 : 0 <= N / D) by (apply Z.div_pos; lia).
  assert (Hf1 : N / D <= k) by (apply Z.div_le_upper_bound; lia).
  destruct (Z.ltb_spec (2 * (N mod D)) D); [lia|].
  assert (Hlt : N / D < k) by nia.
  destruct (Z.ltb_spec D (2 * (N mod D))); [lia|].
  destruct (Z.even (N / D)); lia.
Qed.

(** The nearest float of a number between 0 and 1 lies between 0 and 1. *)
Lemma RN_range (q : Q) : (0 <= q <= 1)%Q -> (0 <= RN q <= 1)%Q.
Proof.
  intros Hq. pose proof Hq as [H0 H1].
  unfold Qle in H0, H1. cbn [Qnum Qden] in H0, H1.
  unfold RN. cbv zeta.
  destruct (Z.eqb_spec (Z.abs (Qnum q)) 0) as [Ha|Ha].
  { split; unfold Qle; simpl; lia. }
  replace (Z.abs (Qnum q)) with (Qnum q) by lia.
  replace (Z.sgn (Qnum q)) with 1 by lia.
  set (e0 := Z.log2 (Qnum q) - Z.log2 (Z.pos (Qden q)) - 52).
  assert (He0 : e0 <= -52).
  { pose proof (Z.log2_le_mono (Qnum q) (Z.pos (Qden q)) ltac:(lia)).
    unfold e0. lia. }
  set (e1 := if Qltb _ _ then e0 - 1 else e0).
  assert (He1 : e1 <= -52) by (unfold e1; destruct (Qltb _ _); lia).
  set (e := Z.max e1 (-1074)).
  assert (He : e <= -52) by (unfold e; lia).
  clearbody e. clear e1 He1 e0 He0.
  assert (Hp : Qpow2 (- e) = inject_Z (2 ^ (- e))).
  { unfold Qpow2. destruct (Z.leb_spec 0 (- e)); [reflexivity | lia]. }
  assert (Hn : Qpow2 e = 1 # Z.to_pos (2 ^ (- e))).
  { unfold Qpow2. destruct (Z.leb_spec 0 e); [lia | reflexivity]. }
  rewrite Hp, Hn.
  assert (Hk : 0 < 2 ^ (- e)) by (apply Z.pow_pos_nonneg; lia).
  assert (Hq' : (0 <= Qnum q # Qden q <= 1)%Q) by (now destruct q).
  pose proof (round_half_even_range (Qnum q # Qden q) (2 ^ (- e)) Hk Hq') as Hr.
  set (m := round_half_even _) in *.
  rewrite Qred_correct.
  unfold Qle. cbn [Qnum Qden Qmult inject_Z].
  rewrite Pos.mul_1_l, Z2Pos.id by lia. lia.
Qed.

Lemma round_range (q : Q) :
  (0 <= q <= 1)%Q ->
  exists q' : Q, round (Fl q) 3 = Fl q' /\ (0 <= q' <= 1)%Q.
Proof.
  intros Hq. unfold round. change (10 ^ Z.of_nat 3) with 1000.
  eexists. split; [reflexivity|]. apply RN_range.
  pose proof (round_half_even_range q 1000 ltac:(lia) Hq) as Hr.
  unfold Qle. cbn [Qnum Qden Z.to_pos]. lia.
Qed.

Lemma mean_range (l : list bool) :
  l <> [] -> exists q : Q, mean l = Fl q /\ (0 <= q <= 1)%Q.
Proof.
  intros Hl. destruct l as [|b l]; [congruence|].
  unfold mean. eexists. split; [reflexivity|].
  apply RN_range.
  pose proof (length_filter (fun b0 : bool => b0 = true) (b :: l)) as Hf.
  unfold Qle. cbn [Qnum Qden].
  rewrite Zpos_of_nat by (simpl; lia). split; lia.
Qed.

(** X5. For a table with rows and a positive sample size the missing
    fraction of every profile [infer_schema] returns is a number between
    0 and 1 (never not-a-number). *)
Theorem missing_pct_in_unit_interval {V : Type} `{EqDecision V}
    (to_csv : DataFrame V -> string) (df : DataFrame V) (sample_n : Z)
    (schema : list (Profile V)) (csv : string) :
  frame_ok df -> 0 < len df -> 0 < sample_n ->
  infer_schema to_csv df sample_n = Return (schema, csv) ->
  Forall (fun p => exists q : Q, p_missing_pct p = Fl q /\ (0 <= q <= 1)%Q)
         schema.
Proof.
  intros Hok Hlen Hn Hret.
  rewrite (infer_schema_columns to_csv df sample_n schema csv Hret).
  apply Forall_map.
  eapply Forall_impl; [exact Hok|]. intros c Hc. cbn beta in Hc |- *.
  unfold infer_column. cbn [p_missing_pct].
  destruct (Z.ltb_spec 0 (len df)); [|lia].
  destruct (mean_range (isna (window df sample_n c))) as (q & -> & Hq).
  - pose proof (window_length df sample_n c Hc ltac:(lia)) as Hw.
    unfold isna. intros Hnil. apply map_eq_nil in Hnil.
    rewrite Hnil in Hw. simpl in Hw. lia.
  - apply round_range, Hq.
Qed.

Lemma missing_pct_in_unit_interval_witness :
  Forall (fun p => exists q : Q, p_missing_pct p = Fl q /\ (0 <= q <= 1)%Q)
         (profiles Examples.df_half 200).
Proof.
  apply (missing_pct_in_unit_interval Examples.csv Examples.df_half 200 _
           (Examples.csv (head Examples.df_half (Z.min (len Examples.df_half) 200)))).
  - repeat constructor.
  - reflexivity.
  - reflexivity.
  - apply infer_schema_distinct, distinct_one_column.
Defined.

(** X6. On a table with rows and pairwise distinct column labels, a
    sample size of 0, or one at or below minus the number of rows, leaves
    the sample empty: [infer_schema] returns one profile per column, and
    every profile has a missing fraction that is not a number, no distinct
    value, no sample value, and is flagged categorical. *)
Theorem empty_sample_gives_nan {V : Type} `{EqDecision V}
    (to_csv : DataFrame V -> string) (df : DataFrame V) (sample_n : Z) :
  frame_ok df -> distinct_labels df -> 0 < len df ->
  sample_n = 0 \/ sample_n <= - len df ->
  exists (schema : list (Profile V)) (csv : string),
    infer_schema to_csv df sample_n = Return (schema, csv)
    /\ map p_name schema = map fst (columns df)
    /\ Forall (fun p => p_missing_pct p = NaN /\ p_nunique p = 0
                        /\ p_samples p = [] /\ p_likely_categorical p = true)
               schema.
Proof.
  intros Hok Hnd Hlen Hn. eexists. eexists.
  split; [apply (infer_schema_distinct to_csv df sample_n Hnd)|].
  unfold profiles. split; [now rewrite map_map|].
  apply Forall_map.
  eapply Forall_impl; [exact Hok|]. intros c Hc. cbn beta in Hc |- *.
  assert (Hw : values (window df sample_n c) = []).
  { unfold window, slice_to. cbn [values].
    replace (Z.min (len df) sample_n) with sample_n by lia.
    destruct (Z.leb_spec 0 sample_n).
    - replace sample_n with 0 by lia. reflexivity.
    - replace (Z.to_nat (Z.of_nat (length (values c.2)) + sample_n)) with 0%nat
        by (unfold len in *; lia).
      reflexivity. }
  unfold infer_column, nunique, dropna, isna.
  cbn [p_missing_pct p_nunique p_samples p_likely_categorical].
  rewrite Hw. destruct (Z.ltb_spec 0 (len df)); [|lia].
  repeat split.
Qed.

Lemma empty_sample_gives_nan_witness :
  exists (schema : list (Profile Z)) (csv : string),
    infer_schema Examples.csv Examples.df_half 0 = Return (schema, csv)
    /\ map p_name schema = map fst (columns Examples.df_half)
    /\ Forall (fun p => p_missing_pct p = NaN /\ p_nunique p = 0
                        /\ p_samples p = [] /\ p_likely_categorical p = true)
               schema.
Proof.
  apply (empty_sample_gives_nan Examples.csv Examples.df_half 0).
  - repeat constructor.
  - apply distinct_one_column.
  - reflexivity.
  - left. reflexivity.
Defined.

(** ** Negative sample sizes and the sample text *)

Lemma slice_to_negative {A : Type} (n : Z) (l : list A) :
  n < 0 -> 0 <= Z.of_nat (length l) + n ->
  slice_to n l = slice_to (Z.of_nat (length l) + n) l.
Proof.
  intros Hn Hl. unfold slice_to.
  destruct (Z.leb_spec 0 n); [lia|].
  now destruct (Z.leb_spec 0 (Z.of_nat (length l) + n)); [|lia].
Qed.

Lemma head_negative {V : Type} (df : DataFrame V) (n : Z) :
  frame_ok df -> - len df <= n < 0 -> head df n = head df (len df + n).
Proof.
  intros Hok Hn. unfold head, len in *. f_equal.
  - rewrite (slice_to_negative n) by (rewrite ?length_seq; lia).
    now rewrite length_seq.
  - apply map_ext_Forall. eapply Forall_impl; [exact Hok|].
    intros c Hc. cbn beta in Hc |- *. f_equal. f_equal.
    rewrite (slice_to_negative n) by lia. now rewrite Hc.
Qed.

(** X7. A negative sample size is no error of its own: with
    [-len(df) <= n < 0] the sample is the table without its last [-n]
    rows, so [infer_schema] ends as it does for the sample size
    [len(df) + n] (with the same profiles and text, or the same
    exception), and it returns when the column labels are pairwise
    distinct. *)
Theorem negative_sample_drops_tail {V : Type} `{EqDecision V}
    (to_csv : DataFrame V -> string) (df : DataFrame V) (sample_n : Z) :
  frame_ok df -> - len df <= sample_n < 0 ->
  infer_schema to_csv df sample_n = infer_schema to_csv df (len df + sample_n)
  /\ (distinct_labels df ->
      infer_schema to_csv df sample_n
      = Return (profiles df (len df + sample_n),
                to_csv (head df (len df + sample_n)))).
Proof.
  intros Hok Hn.
  assert (Heq : infer_schema to_csv df sample_n
                = infer_schema to_csv df (len df + sample_n)).
  { unfold infer_schema.
    replace (Z.min (len df) sample_n) with sample_n by lia.
    replace (Z.min (len df) (len df + sample_n)) with (len df + sample_n) by lia.
    now rewrite (head_negative df sample_n Hok Hn). }
  split; [exact Heq|]. intros Hnd.
  rewrite Heq, (infer_schema_distinct to_csv df (len df + sample_n) Hnd).
  now replace (Z.min (len df) (len df + sample_n)) with (len df + sample_n) by lia.
Qed.

Lemma negative_sample_drops_tail_witness :
  infer_schema Examples.csv Examples.df_half (-1)
  = Return (profiles Examples.df_half 1,
            Examples.csv (head Examples.df_half 1)).
Proof.
  refine (proj2 (negative_sample_drops_tail Examples.csv Examples.df_half (-1) _ _)
            (distinct_one_column _ _ _)).
  - repeat constructor.
  - vm_compute. split; [discriminate | reflexivity].
Defined.

(** X8. The text returned beside the schema is the CSV of a frame of
    [min(len(df), sample_n)] rows (at most [sample_n], for a sample size
    that is not negative), with the columns of the table in order, each
    cut to a prefix of its values. *)
Theorem sample_text_is_bounded {V : Type} `{EqDecision V}
    (to_csv : DataFrame V -> string) (df : DataFrame V) (sample_n : Z)
    (schema : list (Profile V)) (csv : string) :
  frame_ok df -> 0 <= sample_n ->
  infer_schema to_csv df sample_n = Return (schema, csv) ->
  exists sample : DataFrame V,
    csv = to_csv sample
    /\ frame_ok sample
    /\ len sample = Z.min (len df) sample_n
    /\ Forall2 (fun c s => s.1 = c.1 /\ dtype s.2 = dtype c.2
                           /\ values s.2 `prefix_of` values c.2)
               (columns df) (columns sample).
Proof.
  intros Hok Hn Hret. exists (head df (Z.min (len df) sample_n)).
  assert (Hrows : 0 <= Z.min (len df) sample_n) by (unfold len; lia).
  split; [exact (proj2 (infer_schema_Return to_csv df sample_n schema csv Hret))|].
  unfold frame_ok, head, len in *. cbn [index_len columns].
  split; [|split].
  - apply Forall_map. eapply Forall_impl; [exact Hok|].
    intros c Hc. cbn beta in Hc |- *. cbn [snd values].
    rewrite !slice_to_nonneg by exact Hrows.
    rewrite !length_take, length_seq. lia.
  - rewrite length_slice_to by exact Hrows. rewrite length_seq. lia.
  - apply Forall2_map_r, Forall_forall. intros c _. cbn [fst snd dtype values].
    repeat split. rewrite slice_to_nonneg by exact Hrows. apply prefix_take.
Qed.

Lemma sample_text_is_bounded_witness :
  exists sample : DataFrame Z,
    Examples.csv (head Examples.df_ids (Z.min (len Examples.df_ids) 200))
    = Examples.csv sample
    /\ frame_ok sample
    /\ len sample = 200
    /\ Forall2 (fun c s => s.1 = c.1 /\ dtype s.2 = dtype c.2
                           /\ values s.2 `prefix_of` values c.2)
               (columns Examples.df_ids) (columns sample).
Proof.
  apply (sample_text_is_bounded Examples.csv Examples.df_ids 200
           (profiles Examples.df_ids 200)).
  - repeat constructor.
  - discriminate.
  - apply infer_schema_distinct, distinct_one_column.
Defined.

(** ** More on the key loader *)

Lemma rstrip_idempotent (s : string) : Py.rstrip (Py.rstrip s) = Py.rstrip s.
Proof.
  induction s as [|c s IH]; [reflexivity|].
  simpl. destruct (Py.rstrip s) as [|a r] eqn:Hr.
  - destruct (Py.isspace c) eqn:Hc; [reflexivity|]. simpl. now rewrite Hc.
  - change (Py.rstrip (String c (String a r)))
      with (match Py.rstrip (String a r) with
            | EmptyString =>
                if Py.isspace c then EmptyString else String c EmptyString
            | r' => String c r'
            end).
    now rewrite IH.
Qed.

Lemma rstrip_head (c : ascii) (s : string) :
  Py.isspace c = false -> exists r : string, Py.rstrip (String c s) = String c r.
Proof.
  intros Hc. simpl. destruct (Py.rstrip s); [rewrite Hc|]; eauto.
Qed.

Lemma lstrip_head (s : string) :
  Py.lstrip s = EmptyString
  \/ exists (c : ascii) (t : string),
       Py.lstrip s = String c t /\ Py.isspace c = false.
Proof.
  induction s as [|c s IH]; [now left|]. simpl.
  destruct (Py.isspace c) eqn:Hc; [exact IH|]. right. eauto.
Qed.

Lemma strip_idempotent (s : string) : Py.strip (Py.strip s) = Py.strip s.
Proof.
  unfold Py.strip.
  destruct (lstrip_head s) as [-> | (c & t & -> & Hc)]; [reflexivity|].
  destruct (rstrip_head c t Hc) as [r Hr].
  rewrite Hr. simpl Py.lstrip. rewrite Hc, <- Hr. apply rstrip_idempotent.
Qed.

(** Where a key that is returned comes from. *)
Lemma load_openai_key_Some {V : Type} `{EqDecision V} (w : World V)
    (k : string) :
  outcome (load_openai_key w) = Return (Some k) ->
  (exists v : string,
     environ w !! "OPENAI_API_KEY" = Some v /\ v <> EmptyString
     /\ k = Py.strip v)
  \/ (exists text : string,
        files w !! key_path w = Some text /\ k = Py.strip text
        /\ k <> EmptyString).
Proof.
  intros Hk.
  assert (Hfile : load_openai_key w
            = ([Call "load_openai_key"; Getenv "OPENAI_API_KEY"; Open (key_path w)],
               Return (match files w !! key_path w with
                       | Some text =>
                           if Py.truthy (Py.strip text)
                           then Some (Py.strip text) else None
                       | None => None
                       end)) ->
          exists text : string,
            files w !! key_path w = Some text /\ k = Py.strip text
            /\ k <> EmptyString).
  { intros Hf. rewrite Hf in Hk. cbn [outcome snd] in Hk.
    destruct (files w !! key_path w) as [text|]; [|discriminate].
    exists text. destruct (Py.strip text) as [|a r]; [discriminate|].
    cbn [Py.truthy] in Hk. injection Hk as <-.
    repeat split. discriminate. }
  destruct (environ w !! "OPENAI_API_KEY") as [[|c v]|] eqn:Henv.
  - right. apply Hfile, load_openai_key_file. now right.
  - left. exists (String c v).
    rewrite (load_openai_key_env w (String c v) Henv) in Hk by discriminate.
    cbn [outcome snd] in Hk. injection Hk as <-.
    repeat split. discriminate.
  - right. apply Hfile, load_openai_key_file. now left.
Qed.

(** X9. Whatever the environment and the files, a key that
    [load_openai_key] returns has no whitespace around it; it is the empty
    string only when the variable holds a non-empty text that strips to
    nothing, and never when it comes from the file. *)
Theorem loaded_key_is_stripped {V : Type} `{EqDecision V} (w : World V)
    (k : string) :
  outcome (load_openai_key w) = Return (Some k) ->
  Py.strip k = k
  /\ (k = EmptyString ->
      exists v : string,
        environ w !! "OPENAI_API_KEY" = Some v /\ v <> EmptyString
        /\ Py.strip v = EmptyString).
Proof.
  intros Hk.
  destruct (load_openai_key_Some w k Hk)
    as [(v & Henv & Hne & ->) | (text & Hfile & -> & Hne)].
  - split; [apply strip_idempotent|]. intros Hs. now exists v.
  - split; [apply strip_idempotent | contradiction].
Qed.

Lemma loaded_key_is_stripped_witness :
  Py.strip "sk-file" = "sk-file"
  /\ ("sk-file" = EmptyString ->
      exists v : string,
        environ Examples.w_file_key !! "OPENAI_API_KEY" = Some v
        /\ v <> EmptyString /\ Py.strip v = EmptyString).
Proof.
  apply (loaded_key_is_stripped Examples.w_file_key "sk-file").
  vm_compute. reflexivity.
Defined.

Lemma load_openai_key_returns {V : Type} `{EqDecision V} (w : World V) :
  exists r : option string, outcome (load_openai_key w) = Return r.
Proof.
  destruct (environ w !! "OPENAI_API_KEY") as [[|c v]|] eqn:Henv.
  - rewrite (load_openai_key_file w) by (now right). eauto.
  - rewrite (load_openai_key_env w (String c v) Henv) by discriminate. eauto.
  - rewrite (load_openai_key_file w) by (now left). eauto.
Qed.

(** X10. [get_openai_client] has two outcomes only: a client holding the
    key [load_openai_key] found, which is then neither empty nor
    surrounded by whitespace, or the [HTTPException] 500 of the missing
    key; no other exception leaves it. *)
Theorem get_openai_client_outcomes {V : Type} `{EqDecision V} (w : World V) :
  (exists k : string,
     outcome (get_openai_client w) = Return {| api_key := k |}
     /\ outcome (load_openai_key w) = Return (Some k)
     /\ k <> EmptyString /\ Py.strip k = k)
  \/ outcome (get_openai_client w)
     = Raise (HTTPException 500 key_missing_detail).
Proof.
  destruct (load_openai_key_returns w) as [[k|] Hr].
  - destruct k as [|c k].
    + right. apply get_openai_client_missing. now right.
    + left. exists (String c k).
      split; [apply get_openai_client_found; [exact Hr | discriminate]|].
      split; [exact Hr|]. split; [discriminate|].
      destruct (load_openai_key_Some w _ Hr)
        as [(v & _ & _ & ->) | (text & _ & -> & _)]; apply strip_idempotent.
  - right. apply get_openai_client_missing. now left.
Qed.

Lemma no_completion_in_load {V : Type} `{EqDecision V} (w : World V)
    (k : string) (req : CompletionRequest) :
  ChatCompletionsCreate k req ∉ trace (load_openai_key w).
Proof.
  intros Hin.
  destruct (environ w !! "OPENAI_API_KEY") as [[|c v]|] eqn:Henv.
  - rewrite (load_openai_key_file w) in Hin by (now right).
    cbn [trace fst] in Hin. rewrite !elem_of_cons in Hin.
    destruct Hin as [Hc|[Hc|[Hc|Hc]]]; try discriminate. inversion Hc.
  - rewrite (load_openai_key_env w (String c v) Henv) in Hin by discriminate.
    cbn [trace fst] in Hin. rewrite !elem_of_cons in Hin.
    destruct Hin as [Hc|[Hc|Hc]]; try discriminate. inversion Hc.
  - rewrite (load_openai_key_file w) in Hin by (now left).
    cbn [trace fst] in Hin. rewrite !elem_of_cons in Hin.
    destruct Hin as [Hc|[Hc|[Hc|Hc]]]; try discriminate. inversion Hc.
Qed.

(** X11. [load_openai_key] reads one variable, [OPENAI_API_KEY], and opens
    one file at most, the fallback file beside the backend directory; it
    opens it exactly when the variable is unset or empty. *)
Theorem load_openai_key_reads {V : Type} `{EqDecision V} (w : World V) :
  Forall (fun ev => ev = Call "load_openai_key"
                    \/ ev = Getenv "OPENAI_API_KEY"
                    \/ ev = Open (key_path w))
         (trace (load_openai_key w))
  /\ (Open (key_path w) ∈ trace (load_openai_key w) <->
      environ w !! "OPENAI_API_KEY" = None
      \/ environ w !! "OPENAI_API_KEY" = Some EmptyString).
Proof.
  destruct (environ w !! "OPENAI_API_KEY") as [[|c v]|] eqn:Henv.
  - rewrite (load_openai_key_file w) by (now right). split.
    + repeat first [apply Forall_nil_2 | apply Forall_cons_2]; auto.
    + split; [now right|]. intros _. cbn [trace fst].
      do 2 (apply elem_of_cons; right). apply elem_of_cons. now left.
  - rewrite (load_openai_key_env w (String c v) Henv) by discriminate. split.
    + repeat first [apply Forall_nil_2 | apply Forall_cons_2]; auto.
    + cbn [trace fst]. split.
      * intros Hin. apply elem_of_cons in Hin as [Hin|Hin]; [discriminate|].
        apply elem_of_cons in Hin as [Hin|Hin]; [discriminate|].
        inversion Hin.
      * intros [Hn|Hn]; discriminate.
  - rewrite (load_openai_key_file w) by (now left). split.
    + repeat first [apply Forall_nil_2 | apply Forall_cons_2]; auto.
    + split; [now left|]. intros _. cbn [trace fst].
      do 2 (apply elem_of_cons; right). apply elem_of_cons. now left.
Qed.

(** ** The handler as a whole *)

Section HandlerMore.

Context {V : Type} `{EqDecision V}.
Variable w : World V.

Lemma trace_parse_content (c : option string) : trace (parse_content w c) = [].
Proof.
  unfold parse_content, loads, search, lift.
  destruct c as [text|]; simpl; [|reflexivity].
  destruct (json_loads w text); simpl; [reflexivity|].
  destruct (re_search_braces text) as [span|]; simpl; [|reflexivity].
  destruct (json_loads w span); reflexivity.
Qed.

Lemma trace_getitem (j : json) (k : string) : trace (getitem j k) = [].
Proof.
  destruct j; simpl; try reflexivity. destruct (dict_get k items); reflexivity.
Qed.

Lemma trace_upstream_failure {A : Type} (e : exn) :
  trace (upstream_failure (A := A) e) = [Print ("OpenAI error: " +:+ str_exn e)].
Proof.
  unfold upstream_failure. rewrite trace_emit_bind.
  destruct (is_quota_error (str_exn e)); [reflexivity|].
  destruct (is_auth_error (str_exn e)); reflexivity.
Qed.

Lemma upstream_failure_raises {A : Type} (e : exn) :
  exists e' : exn, outcome (upstream_failure (A := A) e) = Raise e'.
Proof.
  rewrite upstream_failure_outcome. cbv zeta.
  destruct (is_quota_error (str_exn e)); [eauto|].
  destruct (is_auth_error (str_exn e)); eauto.
Qed.

(** A request stopped by the upload. *)
Lemma generate_dashboard_upload_fails (data : list Byte.byte) (intent : string)
    (e : exn) :
  outcome (read_upload w data) = Raise e ->
  generate_dashboard w data intent = ([Call "generate_dashboard"], Raise e).
Proof.
  intros Hup. rewrite (pair_trace_outcome (generate_dashboard w data intent)).
  unfold generate_dashboard. f_equal.
  - rewrite trace_emit_bind, (trace_bind_Raise _ _ _ Hup), trace_read_upload.
    reflexivity.
  - now rewrite outcome_emit_bind, (outcome_bind_Raise _ _ _ Hup).
Qed.

(** The events of a request that reaches the live branch. *)
Lemma generate_dashboard_live_trace (data : list Byte.byte) (intent : string)
    (df : DataFrame V) (key : string) :
  live w data df key ->
  trace (generate_dashboard w data intent)
  = (Call "generate_dashboard" :: Getenv "MOCK_DASHBOARD"
     :: Call "get_openai_client" :: trace (load_openai_key w)
     ++ ChatCompletionsCreate key (request_for w df intent)
     :: match chat_completions_create w key (request_for w df intent) with
        | Raise e => [Print ("OpenAI error: " +:+ str_exn e)]
        | Return _ => []
        end)%list.
Proof.
  intros (Hup & Hmock & Hkey & Hne).
  assert (Hclient : outcome (try_except (get_openai_client w) is_HTTPException
                               (fun e => raise e))
                    = Return {| api_key := key |}).
  { rewrite outcome_try_except, (get_openai_client_found w _ Hkey Hne).
    reflexivity. }
  rewrite (generate_dashboard_ingest w data intent df Hup).
  rewrite trace_emit_bind, (trace_bind_Return _ _ _ (proj1 Hup)), trace_read_upload.
  rewrite (trace_bind_Return _ _ _ (outcome_getenv_default w _ _)).
  fold (mock_value w). rewrite Hmock.
  rewrite (trace_bind_Return _ _ _ Hclient), trace_try_except.
  rewrite (get_openai_client_found w _ Hkey Hne), trace_get_openai_client.
  cbn [api_key]. rewrite trace_getenv_default, app_nil_r. cbn [app].
  do 3 f_equal. f_equal.
  rewrite trace_bind, trace_try_except, outcome_try_except.
  rewrite trace_emit_bind, outcome_emit_bind.
  unfold lift. cbn [trace outcome fst snd].
  destruct (chat_completions_create w key (request_for w df intent)) as [resp|e].
  - cbn [app]. f_equal.
    destruct (choices resp) as [|c rest]; [reflexivity|].
    rewrite (trace_bind_Return _ _ c) by reflexivity.
    rewrite trace_bind, trace_parse_content.
    destruct (outcome (parse_content w c)) as [j|e]; [|reflexivity].
    rewrite trace_bind, trace_getitem.
    destruct (outcome (getitem j "dashboard")); reflexivity.
  - cbn [any_Exception]. rewrite trace_upstream_failure.
    destruct (upstream_failure_raises (A := ChatCompletion) e) as [e' ->].
    reflexivity.
Qed.

End HandlerMore.

(** ** The prompt *)

Lemma append_assoc (a b c : string) : (a +:+ b) +:+ c = a +:+ (b +:+ c).
Proof.
  induction a as [|x a IH]; [reflexivity|].
  change (String x ((a +:+ b) +:+ c) = String x (a +:+ (b +:+ c))).
  now rewrite IH.
Qed.

Lemma occurs_in_middle (pre s suf : string) : occurs_in s (pre +:+ s +:+ suf).
Proof. now exists pre, suf. Qed.

Lemma build_prompt_holds_intent {V : Type} `{EqDecision V} (w : World V)
    (schema_json : list (Profile V)) (sample_csv user_intent : string) :
  exists system user : string,
    build_prompt w schema_json sample_csv user_intent
    = [ {| role := "system"; content := system |};
        {| role := "user"; content := user |} ]
    /\ occurs_in user_intent user.
Proof.
  eexists. eexists. split; [reflexivity|].
  eexists ("DATA SCHEMA:" +:+ nl +:+ json_dumps w schema_json +:+ nl
           +:+ nl +:+ "SAMPLE ROWS (CSV):" +:+ nl +:+ sample_csv +:+ nl
           +:+ nl +:+ "USER INTENT:" +:+ nl).
  eexists. rewrite !append_assoc. reflexivity.
Qed.

(** X12. [build_prompt] returns two messages, a system message that does
    not depend on its arguments and a user message, and the user message
    holds the serialized schema, the sample text and the intent, each as
    given (nothing is escaped), in this order. *)
Theorem build_prompt_embeds_inputs {V : Type} `{EqDecision V} (w : World V)
    (schema_json : list (Profile V)) (sample_csv user_intent : string) :
  exists system user : string,
    build_prompt w schema_json sample_csv user_intent
    = [ {| role := "system"; content := system |};
        {| role := "user"; content := user |} ]
    /\ (forall (schema' : list (Profile V)) (csv' intent' : string),
          (build_prompt w schema' csv' intent') !! 0%nat
          = Some {| role := "system"; content := system |})
    /\ (exists a b c d : string,
          user = a +:+ json_dumps w schema_json +:+ b +:+ sample_csv
                 +:+ c +:+ user_intent +:+ d)
    /\ occurs_in user_intent user.
Proof.
  eexists. eexists. split; [reflexivity|]. split; [reflexivity|].
  split.
  - exists ("DATA SCHEMA:" +:+ nl),
           (nl +:+ nl +:+ "SAMPLE ROWS (CSV):" +:+ nl),
           (nl +:+ nl +:+ "USER INTENT:" +:+ nl).
    eexists. rewrite !append_assoc. reflexivity.
  - exists ("DATA SCHEMA:" +:+ nl +:+ json_dumps w schema_json +:+ nl
            +:+ nl +:+ "SAMPLE ROWS (CSV):" +:+ nl +:+ sample_csv +:+ nl
            +:+ nl +:+ "USER INTENT:" +:+ nl).
    eexists. rewrite !append_assoc. reflexivity.
Qed.

(** ** Every request *)

Section Requests.

Context {V : Type} `{EqDecision V}.
Variable w : World V.

Lemma upstream_calls_load : upstream_calls (trace (load_openai_key w)) = 0%nat.
Proof.
  destruct (environ w !! "OPENAI_API_KEY") as [[|c v]|] eqn:Henv.
  - now rewrite (load_openai_key_file w) by (now right).
  - now rewrite (load_openai_key_env w (String c v) Henv) by discriminate.
  - now rewrite (load_openai_key_file w) by (now left).
Qed.

Lemma credential_event_load :
  existsb is_credential_event (trace (load_openai_key w)) = true.
Proof.
  destruct (environ w !! "OPENAI_API_KEY") as [[|c v]|] eqn:Henv.
  - now rewrite (load_openai_key_file w) by (now right).
  - now rewrite (load_openai_key_env w (String c v) Henv) by discriminate.
  - now rewrite (load_openai_key_file w) by (now left).
Qed.

Lemma upstream_calls_app (t1 t2 : list event) :
  upstream_calls (t1 ++ t2) = (upstream_calls t1 + upstream_calls t2)%nat.
Proof. unfold upstream_calls. now rewrite List.filter_app, length_app. Qed.

(** The four ways a request can go. *)
Lemma generate_dashboard_cases (data : list Byte.byte) (intent : string) :
  (exists e : exn,
     generate_dashboard w data intent = ([Call "generate_dashboard"], Raise e)
     /\ (forall df : DataFrame V, ~ reads w data df)
     /\ (outcome (read_upload w data) = Raise e
         \/ exists df : DataFrame V,
              outcome (read_upload w data) = Return df
              /\ infer_schema (to_csv w) df 200 = Raise e))
  \/ (exists df : DataFrame V,
        reads w data df
        /\ mock_enabled (mock_value w) = true
        /\ generate_dashboard w data intent
           = ([Call "generate_dashboard"; Getenv "MOCK_DASHBOARD"],
              Return (JDict [("dashboard", mock_dashboard intent)])))
  \/ (exists df : DataFrame V,
        reads w data df
        /\ mock_enabled (mock_value w) = false
        /\ (forall key : string, ~ live w data df key)
        /\ generate_dashboard w data intent
           = ((Call "generate_dashboard" :: Getenv "MOCK_DASHBOARD"
               :: Call "get_openai_client" :: trace (load_openai_key w))%list,
              Raise (HTTPException 500 key_missing_detail)))
  \/ (exists (df : DataFrame V) (key : string), live w data df key).
Proof.
  destruct (reads_or_stops w data intent) as [(df & Hup) | (e & Hgd & Hwhy)].
  2:{ left. exists e. split; [exact Hgd|]. split; [|exact Hwhy].
      intros df [Hup (r & Hinf)].
      destruct Hwhy as [Hre | (df0 & Hup0 & Hinf0)]; [congruence|].
      assert (df0 = df) as -> by congruence. congruence. }
  right. destruct (mock_enabled (mock_value w)) eqn:Hmock.
  { left. exists df. split; [exact Hup|]. split; [reflexivity|].
    now apply (generate_dashboard_mock w data intent df). }
  right. destruct (load_openai_key_returns w) as [[[|c k]|] Hkey].
  - left. exists df. split; [exact Hup|]. split; [reflexivity|]. split.
    + intros key (_ & _ & Hk & Hne). congruence.
    + apply (generate_dashboard_no_key w data intent df Hup Hmock). now right.
  - right. exists df, (String c k).
    split; [exact Hup|]. split; [exact Hmock|]. split; [exact Hkey | discriminate].
  - left. exists df. split; [exact Hup|]. split; [reflexivity|]. split.
    + intros key (_ & _ & Hk & Hne). congruence.
    + apply (generate_dashboard_no_key w data intent df Hup Hmock). now left.
Qed.

End Requests.

(** X13. A request makes at most one completion call (nothing is tried
    again), and it makes one exactly when the upload reads as a table
    whose schema inference returns, mock mode is off and a non-empty key
    is found. *)
Theorem one_completion_call_at_most {V : Type} `{EqDecision V} (w : World V)
    (data : list Byte.byte) (intent : string) :
  (upstream_calls (trace (generate_dashboard w data intent)) <= 1)%nat
  /\ (upstream_calls (trace (generate_dashboard w data intent)) = 1%nat <->
      exists (df : DataFrame V) (key : string), live w data df key).
Proof.
  destruct (generate_dashboard_cases w data intent)
    as [(e & Hgd & Hup) | [(df & Hup & Hm & Hgd) | [(df & Hup & Hm & Hno & Hgd)
        | (df & key & Hlive)]]].
  - rewrite Hgd. split; [unfold upstream_calls, trace; simpl; lia|].
    split; [intros Hc; vm_compute in Hc; discriminate|].
    intros (df & key & Hup' & _). destruct (proj1 Hup df Hup').
  - rewrite Hgd. split; [unfold upstream_calls, trace; simpl; lia|].
    split; [intros Hc; vm_compute in Hc; discriminate|].
    intros (df' & key & _ & Hm' & _). congruence.
  - rewrite Hgd. cbn [trace fst].
    change (upstream_calls (?a :: ?b :: ?c :: ?t)) with (upstream_calls t).
    rewrite upstream_calls_load. split; [lia|]. split; [discriminate|].
    intros (df' & key & Hlive). destruct Hlive as (Hup' & Hrest).
    assert (df' = df) as ->
      by (destruct Hup as [Hup _], Hup' as [Hup' _]; congruence).
    exfalso. apply (Hno key). split; assumption.
  - rewrite (generate_dashboard_live_trace w data intent df key Hlive).
    change (upstream_calls (?a :: ?b :: ?c :: ?t)) with (upstream_calls t).
    rewrite upstream_calls_app, upstream_calls_load.
    assert (Hone : upstream_calls
              (ChatCompletionsCreate key (request_for w df intent)
               :: match chat_completions_create w key (request_for w df intent) with
                  | Return _ => []
                  | Raise e => [Print ("OpenAI error: " +:+ str_exn e)]
                  end) = 1%nat).
    { destruct (chat_completions_create w key (request_for w df intent));
        reflexivity. }
    rewrite Hone. split; [lia|]. split; [eauto | reflexivity].
Qed.

Lemma one_completion_call_at_most_witness :
  upstream_calls
    (trace (generate_dashboard (Examples.w_says Examples.text_T) [] "sales"))
  = 1%nat.
Proof.
  apply (one_completion_call_at_most (Examples.w_says Examples.text_T) [] "sales").
  exists Examples.df_half, "sk-test". apply live_says.
Defined.

(** X14. Every completion request a handler run makes is sent with the key
    [load_openai_key] found, which is not empty, to the model
    "gpt-4o-mini" with temperature 0 and at most 1500 tokens, and its
    messages are the system message and a user message that holds the
    intent of the request as given. *)
Theorem completion_request_shape {V : Type} `{EqDecision V} (w : World V)
    (data : list Byte.byte) (intent : string) (k : string)
    (req : CompletionRequest) :
  ChatCompletionsCreate k req ∈ trace (generate_dashboard w data intent) ->
  outcome (load_openai_key w) = Return (Some k) /\ k <> EmptyString
  /\ model req = "gpt-4o-mini" /\ temperature req = Fl 0
  /\ max_tokens req = 1500
  /\ (exists system user : string,
        messages req = [ {| role := "system"; content := system |};
                         {| role := "user"; content := user |} ]
        /\ occurs_in intent user).
Proof.
  intros Hin.
  pose proof (no_completion_in_load w k req) as Hload.
  destruct (generate_dashboard_cases w data intent)
    as [(e & Hgd & Hup) | [(df & Hup & Hm & Hgd) | [(df & Hup & Hm & Hno & Hgd)
        | (df & key & Hlive)]]].
  - rewrite Hgd in Hin. cbn [trace fst] in Hin.
    apply list_elem_of_singleton in Hin. discriminate.
  - rewrite Hgd in Hin. cbn [trace fst] in Hin.
    rewrite elem_of_cons, list_elem_of_singleton in Hin.
    destruct Hin; discriminate.
  - rewrite Hgd in Hin. cbn [trace fst] in Hin.
    rewrite !elem_of_cons in Hin. destruct Hin as [Hc|[Hc|[Hc|Hc]]];
      try discriminate. contradiction.
  - rewrite (generate_dashboard_live_trace w data intent df key Hlive) in Hin.
    rewrite !elem_of_cons, elem_of_app, elem_of_cons in Hin.
    destruct Hin as [Hc|[Hc|[Hc|[Hc|[Hc|Hc]]]]]; try discriminate;
      [contradiction | |].
    + injection Hc as -> ->. destruct Hlive as (_ & _ & Hkey & Hne).
      split; [exact Hkey|]. split; [exact Hne|].
      unfold request_for. cbv beta iota.
      repeat (split; [reflexivity|]).
      destruct (build_prompt_holds_intent w (profiles df 200)
                  (to_csv w (head df (Z.min (len df) 200))) intent)
        as (system & user & Hb & Hocc).
      exists system, user. split; [exact Hb | exact Hocc].
    + destruct (chat_completions_create w key (request_for w df intent));
        [inversion Hc|].
      apply list_elem_of_singleton in Hc. discriminate.
Qed.

Lemma completion_request_shape_witness :
  outcome (load_openai_key (Examples.w_says Examples.text_T))
  = Return (Some "sk-test")
  /\ "sk-test" <> EmptyString
  /\ model (request_for (Examples.w_says Examples.text_T) Examples.df_half "sales")
     = "gpt-4o-mini"
  /\ temperature (request_for (Examples.w_says Examples.text_T) Examples.df_half "sales")
     = Fl 0
  /\ max_tokens (request_for (Examples.w_says Examples.text_T) Examples.df_half "sales")
     = 1500
  /\ (exists system user : string,
        messages (request_for (Examples.w_says Examples.text_T) Examples.df_half "sales")
        = [ {| role := "system"; content := system |};
            {| role := "user"; content := user |} ]
        /\ occurs_in "sales" user).
Proof.
  apply (completion_request_shape (Examples.w_says Examples.text_T) [] "sales").
  rewrite (generate_dashboard_live_trace (Examples.w_says Examples.text_T) []
             "sales" Examples.df_half "sk-test" (live_says _)).
  apply elem_of_cons; right. apply elem_of_cons; right. apply elem_of_cons; right.
  apply elem_of_app; right. apply elem_of_cons; left. reflexivity.
Defined.

(** X15. Whatever the world, a value the handler returns is an object with
    the single key "dashboard". *)
Theorem success_is_envelope {V : Type} `{EqDecision V} (w : World V)
    (data : list Byte.byte) (intent : string) (j : json) :
  outcome (generate_dashboard w data intent) = Return j ->
  exists d : json, j = JDict [("dashboard", d)].
Proof.
  intros Hj.
  destruct (generate_dashboard_cases w data intent)
    as [(e & Hgd & Hup) | [(df & Hup & Hm & Hgd) | [(df & Hup & Hm & Hno & Hgd)
        | (df & key & Hlive)]]].
  - rewrite Hgd in Hj. discriminate.
  - rewrite Hgd in Hj. injection Hj as <-. eauto.
  - rewrite Hgd in Hj. discriminate.
  - destruct (chat_completions_create w key (request_for w df intent))
      as [resp|e] eqn:Hchat.
    + rewrite (generate_dashboard_upstream_returns w data intent df key resp
                 Hlive Hchat) in Hj.
      destruct (choices resp) as [|c rest]; [discriminate|].
      destruct (outcome (parse_content w c)) as [j'|e]; [|discriminate].
      destruct (outcome (getitem j' "dashboard")) as [d|e]; [|discriminate].
      injection Hj as <-. eauto.
    + rewrite (generate_dashboard_upstream_raises w data intent df key e
                 Hlive Hchat) in Hj.
      cbv zeta in Hj. destruct (is_quota_error (str_exn e)); [discriminate|].
      destruct (is_auth_error (str_exn e)); discriminate.
Qed.

Lemma success_is_envelope_witness :
  exists d : json,
    JDict [("dashboard", JDict [("title", JStr "T")])] = JDict [("dashboard", d)].
Proof.
  apply (success_is_envelope (Examples.w_says Examples.text_T) [] "sales").
  vm_compute. reflexivity.
Defined.

Lemma parse_content_text_outcomes {V : Type} `{EqDecision V} (w : World V)
    (text : string) :
  (exists j : json, parse_content w (Some text) = ([], Return j))
  \/ (exists detail : string,
        parse_content w (Some text) = ([], Raise (HTTPException 502 detail))).
Proof.
  destruct (json_loads w text) as [j|e] eqn:Hj.
  - left. exists j. now apply parse_content_direct.
  - rewrite (parse_content_fallback w text e Hj).
    destruct (re_search_braces text) as [span|]; [|right; eauto].
    destruct (json_loads w span); [left | right]; eauto.
Qed.

(** X16. When pandas' readers raise no [HTTPException], the status of the
    answer is one of 200, 401, 429, 500 and 502. *)
Theorem status_codes {V : Type} `{EqDecision V} (w : World V)
    (data : list Byte.byte) (intent : string) :
  (forall (text : string) (code : Z) (detail : string),
     read_csv_text w text <> Raise (HTTPException code detail)) ->
  http_status (outcome (generate_dashboard w data intent))
  ∈ [200; 401; 429; 500; 502].
Proof.
  intros Hpandas.
  destruct (generate_dashboard_cases w data intent)
    as [(e & Hgd & Hup) | [(df & Hup & Hm & Hgd) | [(df & Hup & Hm & Hno & Hgd)
        | (df & key & Hlive)]]].
  - rewrite Hgd. cbn [outcome snd].
    destruct e as [code detail|class message]; [|simpl; set_unfold; tauto].
    exfalso. destruct Hup as [_ [Hup | (df & _ & Hinf)]].
    + unfold read_upload in Hup. rewrite outcome_try_except in Hup.
      unfold lift, outcome in Hup. cbn [snd] in Hup.
      destruct (read_csv_bytes w data); [discriminate|].
      cbn [any_Exception] in Hup. now apply Hpandas in Hup.
    + destruct (infer_schema_Raise (to_csv w) df 200 _ Hinf) as [He _].
      discriminate.
  - rewrite Hgd. simpl. set_unfold. tauto.
  - rewrite Hgd. simpl. set_unfold. tauto.
  - destruct (chat_completions_create w key (request_for w df intent))
      as [resp|e] eqn:Hchat.
    + rewrite (generate_dashboard_upstream_returns w data intent df key resp
                 Hlive Hchat).
      destruct (choices resp) as [|[text|] rest]; [simpl; set_unfold; tauto | |].
      * destruct (parse_content_text_outcomes w text) as [[j ->]|[detail ->]];
          cbn [outcome snd]; [|simpl; set_unfold; tauto].
        rewrite getitem_dashboard.
        destruct j; simpl; try (set_unfold; tauto).
        destruct (dict_get "dashboard" items); simpl; set_unfold; tauto.
      * simpl. set_unfold. tauto.
    + rewrite (generate_dashboard_upstream_raises w data intent df key e
                 Hlive Hchat).
      cbv zeta. destruct (is_quota_error (str_exn e)); [simpl; set_unfold; tauto|].
      destruct (is_auth_error (str_exn e)); simpl; set_unfold; tauto.
Qed.

Lemma status_codes_witness :
  http_status (outcome (generate_dashboard Examples.w_no_key [] "sales"))
  ∈ [200; 401; 429; 500; 502].
Proof.
  apply (status_codes Examples.w_no_key [] "sales").
  intros text code detail. discriminate.
Defined.

(** X17. For a request whose upload reads as a table and whose schema
    inference returns, the credential resolver runs exactly when mock mode
    is off. *)
Theorem credential_resolved_unless_mock {V : Type} `{EqDecision V}
    (w : World V) (data : list Byte.byte) (intent : string) (df : DataFrame V) :
  reads w data df ->
  existsb is_credential_event (trace (generate_dashboard w data intent))
  = negb (mock_enabled (mock_value w)).
Proof.
  intros Hup.
  destruct (generate_dashboard_cases w data intent)
    as [(e & Hgd & Hup') | [(df' & _ & Hm & Hgd) | [(df' & _ & Hm & Hno & Hgd)
        | (df' & key & Hlive)]]].
  - destruct (proj1 Hup' df Hup).
  - rewrite Hgd, Hm. reflexivity.
  - rewrite Hgd, Hm. reflexivity.
  - rewrite (generate_dashboard_live_trace w data intent df' key Hlive).
    destruct Hlive as (_ & -> & _). reflexivity.
Qed.

Lemma credential_resolved_unless_mock_witness :
  existsb is_credential_event
    (trace (generate_dashboard (Examples.w_mock "1") [] "sales")) = false
  /\ existsb is_credential_event
       (trace (generate_dashboard Examples.w_no_key [] "sales")) = true.
Proof.
  split.
  - apply (credential_resolved_unless_mock (Examples.w_mock "1") [] "sales"
             Examples.df_half). apply reads_df_half.
  - apply (credential_resolved_unless_mock Examples.w_no_key [] "sales"
             Examples.df_half). apply reads_df_half.
Defined.

(** X18. The parse of a model output that is a text ends in a value or in
    an [HTTPException] 502, whatever [json.loads] does on it, and makes no
    call; an output that is not a text ([None]) raises a [TypeError]. *)
Theorem parse_content_outcomes {V : Type} `{EqDecision V} (w : World V) :
  (forall text : string,
     (exists j : json, parse_content w (Some text) = ([], Return j))
     \/ (exists detail : string,
           parse_content w (Some text) = ([], Raise (HTTPException 502 detail))))
  /\ parse_content w None
     = ([], Raise (Exception "TypeError" "expected string or bytes-like object, got 'NoneType'")).
Proof. split; [apply parse_content_text_outcomes | reflexivity]. Qed.

(** ** The tests on texts *)

Lemma occurs_in_trans (a b s : string) :
  occurs_in a b -> occurs_in b s -> occurs_in a s.
Proof.
  intros (p1 & s1 & ->) (p2 & s2 & ->).
  exists (p2 +:+ p1), (s1 +:+ s2). now rewrite !append_assoc.
Qed.

(** X19. The marker "invalid_api_key" never decides: a text that holds it
    holds "invalid", so the authentication test is the test for "401",
    "unauthorized" and "invalid" alone. *)
Theorem invalid_api_key_marker_is_subsumed (se : string) :
  is_auth_error se
  = Py.contains "401" se || Py.contains "unauthorized" (Py.lower se)
    || Py.contains "invalid" (Py.lower se).
Proof.
  unfold is_auth_error.
  destruct (Py.contains "invalid_api_key" (Py.lower se)) eqn:Hk.
  - assert (Hi : Py.contains "invalid" (Py.lower se) = true).
    { apply contains_spec. apply (occurs_in_trans _ "invalid_api_key").
      - exists EmptyString, "_api_key". reflexivity.
      - now apply contains_spec. }
    rewrite Hi, !orb_true_r. reflexivity.
  - now rewrite orb_false_r.
Qed.

(** X20. Mock mode is on only when [MOCK_DASHBOARD] is set, and set to
    "1", "true" or "yes" in some mix of cases; unset, it is off. *)
Theorem mock_only_when_set {V : Type} (w : World V) :
  mock_enabled (mock_value w) = true <->
  exists value : string,
    environ w !! "MOCK_DASHBOARD" = Some value
    /\ (Py.lower value = "1" \/ Py.lower value = "true"
        \/ Py.lower value = "yes").
Proof.
  unfold mock_value. split.
  - destruct (environ w !! "MOCK_DASHBOARD") as [value|]; [|discriminate].
    cbn [default]. unfold mock_enabled, Py.in_tuple. cbn [existsb].
    unfold id. rewrite !orb_true_iff, !String.eqb_eq. intros Hv.
    exists value. split; [reflexivity|].
    destruct Hv as [Hv|[Hv|[Hv|Hv]]]; [tauto | tauto | tauto | discriminate].
  - intros (value & -> & Hv). now apply mock_enabled_lower.
Qed.

(** ** The pattern of the fallback *)

Lemma to_last_rbrace_found (a b : string) :
  to_last_rbrace (a +:+ String "}" b) <> None.
Proof.
  induction a as [|c a IH].
  - simpl. destruct (to_last_rbrace b); discriminate.
  - change (String c a +:+ String "}" b) with (String c (a +:+ String "}" b)).
    simpl. destruct (to_last_rbrace (a +:+ String "}" b)); [discriminate|].
    contradiction.
Qed.

Lemma from_first_lbrace_found (pre rest : string) :
  exists rest' tail : string,
    from_first_lbrace (pre +:+ String "{" rest) = Some (String "{" rest')
    /\ rest' = tail +:+ rest.
Proof.
  induction pre as [|c pre IH].
  - exists rest, EmptyString. split; reflexivity.
  - change (String c pre +:+ String "{" rest)
      with (String c (pre +:+ String "{" rest)).
    simpl. destruct (Ascii.eqb_spec c "{") as [->|Hc].
    + exists (pre +:+ String "{" rest), (pre +:+ String "{" EmptyString).
      split; [reflexivity|]. now rewrite append_assoc.
    + exact IH.
Qed.

(** X21. The pattern finds a span exactly when the text has an opening
    brace with a closing brace somewhere after it. *)
Theorem re_search_braces_finds (s : string) :
  (exists span : string, re_search_braces s = Some span) <->
  exists pre mid suf : string,
    s = pre +:+ String "{" (mid +:+ String "}" suf).
Proof.
  split.
  - intros [span Hs].
    destruct (re_search_braces_Some s span Hs) as (pre & body & suf & -> & _ & _ & ->).
    exists pre, body, suf. f_equal.
    change (String "{" ((body +:+ String "}" EmptyString) +:+ suf)
            = String "{" (body +:+ String "}" suf)).
    now rewrite append_assoc.
  - intros (pre & mid & suf & ->).
    destruct (from_first_lbrace_found pre (mid +:+ String "}" suf))
      as (rest' & tail & Hf & ->).
    unfold re_search_braces. rewrite Hf.
    rewrite <- append_assoc.
    destruct (to_last_rbrace ((tail +:+ mid) +:+ String "}" suf)) as [r|] eqn:Hr.
    + eauto.
    + now apply to_last_rbrace_found in Hr.
Qed.

(** ** Edges of the handler *)

(** X22. The upload is read by the bytes reader first and, only when that
    raises, by the text reader on the decoded bytes; when both raise the
    request ends there with the exception of the text reader, before
    [MOCK_DASHBOARD] is read, so mock mode does not answer for an upload
    that cannot be read. *)
Theorem unreadable_upload_stops_request {V : Type} `{EqDecision V}
    (w : World V) (data : list Byte.byte) (intent : string) :
  (forall df : DataFrame V,
     read_csv_bytes w data = Return df ->
     outcome (read_upload w data) = Return df)
  /\ (forall e1 : exn,
        read_csv_bytes w data = Raise e1 ->
        outcome (read_upload w data) = read_csv_text w (decode_ignore w data))
  /\ (forall e1 e2 : exn,
        read_csv_bytes w data = Raise e1 ->
        read_csv_text w (decode_ignore w data) = Raise e2 ->
        generate_dashboard w data intent
        = ([Call "generate_dashboard"], Raise e2)).
Proof.
  assert (Hfall : forall e1 : exn,
            read_csv_bytes w data = Raise e1 ->
            outcome (read_upload w data) = read_csv_text w (decode_ignore w data)).
  { intros e1 H1. unfold read_upload. rewrite outcome_try_except.
    unfold lift, outcome. cbn [snd]. now rewrite H1. }
  split; [|split].
  - intros df Hdf. unfold read_upload. rewrite outcome_try_except.
    unfold lift, outcome. cbn [snd]. now rewrite Hdf.
  - exact Hfall.
  - intros e1 e2 H1 H2. apply generate_dashboard_upload_fails.
    now rewrite (Hfall e1 H1).
Qed.

Lemma unreadable_upload_stops_request_witness :
  generate_dashboard
    (Examples.world (<["MOCK_DASHBOARD" := "1"]> ∅) ∅
       (Raise (Exception "EmptyDataError" "No columns to parse from file"))
       (Examples.says Examples.text_T))
    [] "sales"
  = ([Call "generate_dashboard"],
     Raise (Exception "EmptyDataError" "No columns to parse from file")).
Proof.
  apply (proj2 (proj2 (unreadable_upload_stops_request
           (Examples.world (<["MOCK_DASHBOARD" := "1"]> ∅) ∅
              (Raise (Exception "EmptyDataError" "No columns to parse from file"))
              (Examples.says Examples.text_T)) [] "sales"))
           (Exception "EmptyDataError" "No columns to parse from file"));
    reflexivity.
Defined.

(** X23. A completion that comes back without a choice, or whose first
    choice has no text, is not handled: the request ends with an
    [IndexError], or with the [TypeError] of the pattern search, and the
    status is 500. *)
Theorem empty_completion_is_server_error {V : Type} `{EqDecision V}
    (w : World V) (data : list Byte.byte) (intent : string) (df : DataFrame V)
    (key : string) (resp : ChatCompletion) :
  live w data df key ->
  chat_completions_create w key (request_for w df intent) = Return resp ->
  (choices resp = [] ->
   outcome (generate_dashboard w data intent)
   = Raise (Exception "IndexError" "list index out of range"))
  /\ (forall rest : list (option string),
        choices resp = None :: rest ->
        outcome (generate_dashboard w data intent)
        = Raise (Exception "TypeError" "expected string or bytes-like object, got 'NoneType'"))
  /\ (choices resp = [] \/ (exists rest, choices resp = None :: rest) ->
      http_status (outcome (generate_dashboard w data intent)) = 500).
Proof.
  intros Hlive Hresp.
  rewrite (generate_dashboard_upstream_returns w data intent df key resp Hlive Hresp).
  split; [|split].
  - now intros ->.
  - now intros rest ->.
  - intros [-> | [rest ->]]; reflexivity.
Qed.

Lemma empty_completion_is_server_error_witness :
  outcome (generate_dashboard
             (Examples.world Examples.env_key ∅ (Return Examples.df_half)
                (Return {| choices := [] |}))
             [] "sales")
  = Raise (Exception "IndexError" "list index out of range").
Proof.
  apply (proj1 (empty_completion_is_server_error
           (Examples.world Examples.env_key ∅ (Return Examples.df_half)
              (Return {| choices := [] |}))
           [] "sales" Examples.df_half "sk-test" {| choices := [] |}
           (live_env_key _) eq_refl)).
  reflexivity.
Defined.
